(** * PBX telephone exchange: the TU state machine and the PBX registry

    A shallow embedding of [src/tu.c], [src/pbx.c] and the service loop of
    [src/server.c].  The C code is single-assignment-free pointer code over
    heap-allocated [struct tu] objects, so the model is a state-and-error
    monad over a world made of

    - the heap of TU objects (a finite map from addresses to records),
    - the PBX object behind the global [pbx],
    - the history of system calls and mutex operations, newest first,
    - the environment's choices ([write] failing, what [malloc] returns).

    Each function is run to completion by one thread.  A thread that asks
    for a mutex that is held does not return: the outcome is [Blocked]. *)

From Stdlib Require Import ZArith String Ascii List Lia DecimalString DecimalPos.
From stdpp Require Import gmap strings list.

Local Open Scope string_scope.
Local Open Scope Z_scope.

(** ** C integers and strings *)

Definition INT_MIN : Z := - 2 ^ 31.
Definition INT_MAX : Z := 2 ^ 31 - 1.

(** The value an [int] holds after an arithmetic result [z]; signed overflow
    is undefined in C, the model takes the two's-complement result. *)
Definition int_wrap (z : Z) : Z := (z + 2 ^ 31) mod 2 ^ 32 - 2 ^ 31.

Definition in_int (z : Z) : Prop := INT_MIN <= z <= INT_MAX.

Definition CR : ascii := ascii_of_nat 13.
Definition LF : ascii := ascii_of_nat 10.

(** The two-byte line terminator written "\r\n" in the source. *)
Definition EOL : string := String CR (String LF EmptyString).

(** [%d] *)
Definition fmt_d (z : Z) : string := NilZero.string_of_int (Z.to_int z).

(** [snprintf(buf, size, ...)] keeps at most [size - 1] characters of the
    formatted text [s]. *)
Definition snprintf (size : nat) (s : string) : string :=
  String.substring 0 (size - 1) s.

(** ** Data model *)

(** Addresses of heap objects; a pointer is an address or NULL. *)
Definition loc := positive.
Definition ptr := option loc.
Definition NULL : ptr := None.

(** Modelled from the spec: the enumeration TU_STATE is declared in tu.h,
    which is not among the sources.  The constructors are in the order of
    the [state_messages] table of [notify_client_of_tu_state], which the
    code indexes by the state's number. *)
Inductive TU_STATE : Type :=
| TU_ON_HOOK
| TU_RINGING
| TU_DIAL_TONE
| TU_RING_BACK
| TU_BUSY_SIGNAL
| TU_CONNECTED
| TU_ERROR.

#[global] Instance TU_STATE_eq_dec : EqDecision TU_STATE.
Proof. solve_decision. Defined.

Definition state_index (s : TU_STATE) : nat :=
  match s with
  | TU_ON_HOOK => 0
  | TU_RINGING => 1
  | TU_DIAL_TONE => 2
  | TU_RING_BACK => 3
  | TU_BUSY_SIGNAL => 4
  | TU_CONNECTED => 5
  | TU_ERROR => 6
  end%nat.

(** [struct tu]; [mutex] is [true] while the mutex is held. *)
Record TU : Type := mkTU {
  fd : Z;
  ext : Z;
  ref_count : Z;
  state : TU_STATE;
  peer : ptr;
  mutex : bool
}.

(** Modelled from the spec: PBX_MAX_EXTENSIONS is a macro of pbx.h, which is
    not among the sources; the spec gives the fixed bound of the extension
    table as 1024. *)
Definition PBX_MAX_EXTENSIONS : Z := 1024.

(** [struct pbx].  The array [extensions] of TU pointers is a finite map
    from the index to the pointer stored there, a NULL slot being an absent
    key; the code only indexes it after its range check.  [lock] is [true]
    while the mutex is held. *)
Record PBX : Type := mkPBX {
  extensions : gmap Z loc;
  lock : bool;
  active_tus : Z
}.

Inductive mutex_id : Type :=
| MPbx
| MTu (l : loc).

(** What a thread does that is visible outside it. *)
Inductive event : Type :=
| EvWrite (d : Z) (msg : string)      (* write(d, msg, strlen(msg)) >= 0 *)
| EvWriteFail (d : Z) (msg : string)  (* write(d, msg, strlen(msg)) < 0 *)
| EvClose (d : Z)                     (* close(d) *)
| EvLock (m : mutex_id)               (* pthread_mutex_lock returned *)
| EvUnlock (m : mutex_id)             (* pthread_mutex_unlock *)
| EvSignal.                           (* pthread_cond_signal *)

(** The world.  [trace] is newest first.  [write_fails] and [malloc] are
    the environment: given the history so far, whether the next [write]
    on a descriptor fails and what the next [malloc] returns. *)
Record World : Type := mkWorld {
  heap : gmap loc TU;
  pbx : option PBX;
  trace : list event;
  write_fails : list event -> Z -> bool;
  malloc : list event -> ptr
}.

Definition with_heap (h : gmap loc TU) (w : World) : World :=
  {| heap := h; pbx := pbx w; trace := trace w;
     write_fails := write_fails w; malloc := malloc w |}.

Definition with_pbx (p : option PBX) (w : World) : World :=
  {| heap := heap w; pbx := p; trace := trace w;
     write_fails := write_fails w; malloc := malloc w |}.

Definition log (e : event) (w : World) : World :=
  {| heap := heap w; pbx := pbx w; trace := e :: trace w;
     write_fails := write_fails w; malloc := malloc w |}.

(** ** The monad *)

Inductive fault : Type :=
| NullDeref
| UseAfterFree (l : loc).

Inductive outcome (A : Type) : Type :=
| Ret (a : A) (w : World)          (* the call returned [a] *)
| Blocked (m : mutex_id) (w : World) (* waiting for [m] for ever *)
| Fault (f : fault) (w : World)    (* invalid memory access *)
| OutOfFuel (w : World).
Arguments Ret {A} a w.
Arguments Blocked {A} m w.
Arguments Fault {A} f w.
Arguments OutOfFuel {A} w.

Definition M (A : Type) : Type := World -> outcome A.

Definition ret {A} (a : A) : M A := fun w => Ret a w.

Definition bind {A B} (m : M A) (k : A -> M B) : M B :=
  fun w =>
    match m w with
    | Ret a w' => k a w'
    | Blocked m w' => Blocked m w'
    | Fault f w' => Fault f w'
    | OutOfFuel w' => OutOfFuel w'
    end.

Declare Scope pbx_scope.
Delimit Scope pbx_scope with pbx.
Notation "x <- m ;; k" := (bind m (fun x => k))
  (at level 20, m at level 99, k at level 200, only parsing) : pbx_scope.
Notation "m ;; k" := (bind m (fun _ => k))
  (at level 100, k at level 200, only parsing) : pbx_scope.
Local Open Scope pbx_scope.

Definition emit (e : event) : M unit := fun w => Ret tt (log e w).

(** Reading a field through a pointer: [p->f]. *)
Definition load {A} (p : ptr) (f : TU -> A) : M A :=
  fun w =>
    match p with
    | None => Fault NullDeref w
    | Some l =>
        match heap w !! l with
        | None => Fault (UseAfterFree l) w
        | Some t => Ret (f t) w
        end
    end.

(** Writing through a pointer: [p->f = v], as the update [g] of the record. *)
Definition store (p : ptr) (g : TU -> TU) : M unit :=
  fun w =>
    match p with
    | None => Fault NullDeref w
    | Some l =>
        match heap w !! l with
        | None => Fault (UseAfterFree l) w
        | Some t => Ret tt (with_heap (<[l := g t]> (heap w)) w)
        end
    end.

Definition set_fd (v : Z) (t : TU) : TU :=
  mkTU v (ext t) (ref_count t) (state t) (peer t) (mutex t).
Definition set_ext (v : Z) (t : TU) : TU :=
  mkTU (fd t) v (ref_count t) (state t) (peer t) (mutex t).
Definition set_ref_count (v : Z) (t : TU) : TU :=
  mkTU (fd t) (ext t) v (state t) (peer t) (mutex t).
Definition set_state (v : TU_STATE) (t : TU) : TU :=
  mkTU (fd t) (ext t) (ref_count t) v (peer t) (mutex t).
Definition set_peer (v : ptr) (t : TU) : TU :=
  mkTU (fd t) (ext t) (ref_count t) (state t) v (mutex t).
Definition set_mutex (v : bool) (t : TU) : TU :=
  mkTU (fd t) (ext t) (ref_count t) (state t) (peer t) v.

(** [pthread_mutex_lock(&p->mutex)] *)
Definition mutex_lock (p : ptr) : M unit :=
  fun w =>
    match p with
    | None => Fault NullDeref w
    | Some l =>
        match heap w !! l with
        | None => Fault (UseAfterFree l) w
        | Some t =>
            if mutex t then Blocked (MTu l) w
            else Ret tt (log (EvLock (MTu l))
                           (with_heap (<[l := set_mutex true t]> (heap w)) w))
        end
    end.

(** [pthread_mutex_unlock(&p->mutex)] *)
Definition mutex_unlock (p : ptr) : M unit :=
  fun w =>
    match p with
    | None => Fault NullDeref w
    | Some l =>
        match heap w !! l with
        | None => Fault (UseAfterFree l) w
        | Some t =>
            Ret tt (log (EvUnlock (MTu l))
                      (with_heap (<[l := set_mutex false t]> (heap w)) w))
        end
    end.

(** [pthread_mutex_destroy(&p->mutex)] *)
Definition mutex_destroy (p : ptr) : M unit :=
  load p mutex ;; ret tt.

(** [free(p)] *)
Definition free (p : ptr) : M unit :=
  fun w =>
    match p with
    | None => Ret tt w
    | Some l =>
        match heap w !! l with
        | None => Fault (UseAfterFree l) w
        | Some _ => Ret tt (with_heap (delete l (heap w)) w)
        end
    end.

(** [write(d, msg, strlen(msg)) < 0] *)
Definition sys_write_failed (d : Z) (msg : string) : M bool :=
  fun w =>
    if write_fails w (trace w) d
    then Ret true (log (EvWriteFail d msg) w)
    else Ret false (log (EvWrite d msg) w).

(** [close(d)] *)
Definition sys_close (d : Z) : M unit := emit (EvClose d).

(** [malloc(...)]: the environment picks the result. *)
Definition do_malloc : M ptr := fun w => Ret (malloc w (trace w)) w.

(** The assignments that give the block at [l] its first field values. *)
Definition init_block (l : loc) (t : TU) : M unit :=
  fun w => Ret tt (with_heap (<[l := t]> (heap w)) w).

(** Pointer comparisons; NULL is the least address. *)
Definition ptr_eqb (p q : ptr) : bool :=
  match p, q with
  | None, None => true
  | Some a, Some b => Pos.eqb a b
  | _, _ => false
  end.

Definition ptr_ltb (p q : ptr) : bool :=
  match p, q with
  | None, None => false
  | None, Some _ => true
  | Some _, None => false
  | Some a, Some b => Pos.ltb a b
  end.

(** Enumeration values are compared as the integers they are. *)
Definition state_eqb (s t : TU_STATE) : bool :=
  Nat.eqb (state_index s) (state_index t).

(** ** tu.c *)

Definition notify_client (d : Z) (message : string) : M unit :=
  if d <? 0 then ret tt
  else
    failed <- sys_write_failed d message ;;
    if (failed : bool) then sys_close d else ret tt.

Definition on_hook_line (n : Z) : string := "ON HOOK " +:+ fmt_d n +:+ EOL.
Definition connected_line (n : Z) : string := "CONNECTED " +:+ fmt_d n +:+ EOL.

Definition state_messages : list string :=
  [ "ON_HOOK" +:+ EOL;
    "RINGING" +:+ EOL;
    "DIAL_TONE" +:+ EOL;
    "RING_BACK" +:+ EOL;
    "BUSY_SIGNAL" +:+ EOL;
    "CONNECTED" +:+ EOL;
    "ERROR" +:+ EOL ].

(** [strncpy(buffer, s, n); buffer[n] = '\0'] *)
Definition strncpy (n : nat) (s : string) : string := String.substring 0 n s.

Definition notify_client_of_tu_state (tu : ptr) : M unit :=
  s <- load tu state ;;
  buffer <-
    match s with
    | TU_ON_HOOK =>
        d <- load tu fd ;; ret (snprintf 64 (on_hook_line d))
    | TU_CONNECTED =>
        p <- load tu peer ;;
        e <- load p ext ;; ret (snprintf 64 (connected_line e))
    | _ =>
        ret (strncpy 63 (nth (state_index s) state_messages ""))
    end ;;
  d <- load tu fd ;;
  notify_client d buffer.

Definition safe_mutex_lock (tu1 tu2 : ptr) : M unit :=
  if ptr_ltb tu1 tu2
  then mutex_lock tu1 ;; mutex_lock tu2
  else mutex_lock tu2 ;; mutex_lock tu1.

Definition safe_mutex_unlock (tu1 tu2 : ptr) : M unit :=
  if ptr_ltb tu1 tu2
  then mutex_unlock tu1 ;; mutex_unlock tu2
  else mutex_unlock tu2 ;; mutex_unlock tu1.

(** The fresh block's first use is [pthread_mutex_lock] on its mutex,
    before [pthread_mutex_init]; the model lets that call return and gives
    the block the field values assigned next, the mutex as initialised. *)
Definition tu_init (fd0 : Z) : M ptr :=
  tu <- do_malloc ;;
  match tu with
  | None => ret NULL
  | Some l =>
      emit (EvLock (MTu l)) ;;
      init_block l (mkTU fd0 fd0 1 TU_ON_HOOK NULL false) ;;
      notify_client fd0 (snprintf 15 (on_hook_line fd0)) ;;
      mutex_unlock tu ;;
      ret tu
  end.

Definition tu_ref (tu : ptr) : M unit :=
  n <- load tu ref_count ;;
  store tu (set_ref_count (int_wrap (n + 1))).

(** [tu_unref] calls itself on the peer; [self] stands for that call. *)
Definition tu_unref_body (self : ptr -> M unit) (tu : ptr) : M unit :=
  match tu with
  | None => ret tt
  | Some _ =>
      mutex_lock tu ;;
      n <- load tu ref_count ;;
      store tu (set_ref_count (int_wrap (n - 1))) ;;
      ref_count <- load tu ref_count ;;
      mutex_unlock tu ;;
      if ref_count =? 0 then
        p <- load tu peer ;;
        match p with
        | Some _ =>
            mutex_lock p ;;
            p <- load tu peer ;;
            store p (set_state TU_ON_HOOK) ;;
            p <- load tu peer ;;
            d <- load p fd ;;
            notify_client d (snprintf 15 (on_hook_line d)) ;;
            p <- load tu peer ;;
            self p ;;
            p <- load tu peer ;;
            store p (set_peer NULL) ;;
            store tu (set_peer NULL) ;;
            p <- load tu peer ;;
            mutex_unlock p
        | None => ret tt
        end ;;
        d <- load tu fd ;;
        (if 0 <=? d
         then sys_close d ;; store tu (set_fd (-1))
         else ret tt) ;;
        mutex_destroy tu ;;
        free tu
      else ret tt
  end.

(** [fuel] bounds the depth of the calls. *)
Fixpoint tu_unref_fuel (fuel : nat) (tu : ptr) {struct fuel} : M unit :=
  match fuel with
  | O => fun w => OutOfFuel w
  | S fuel' => tu_unref_body (tu_unref_fuel fuel') tu
  end.

(** The nested call asks for the mutex its caller holds, so no call goes
    deeper than two (lemma [tu_unref_fuel_enough]). *)
Definition tu_unref (tu : ptr) : M unit := tu_unref_fuel 2 tu.

Definition tu_fileno (tu : ptr) : M Z := load tu fd.

Definition tu_extension (tu : ptr) : M Z := load tu ext.

Definition tu_set_extension (tu : ptr) (ext0 : Z) : M Z :=
  e <- load tu ext ;;
  if negb (e =? -1) then ret (-1)
  else
    store tu (set_ext ext0) ;;
    e <- load tu ext ;;
    d <- load tu fd ;;
    notify_client d (snprintf 15 (on_hook_line e)) ;;
    ret 0.

Definition tu_dial (tu target : ptr) : M Z :=
  match tu with
  | None => ret (-1)
  | Some _ =>
      mutex_lock tu ;;
      s <- load tu state ;;
      if negb (state_eqb s TU_DIAL_TONE) then
        notify_client_of_tu_state tu ;;
        mutex_unlock tu ;;
        ret (-1)
      else
        match target with
        | None =>
            store tu (set_state TU_ERROR) ;;
            d <- load tu fd ;;
            notify_client d ("ERROR" +:+ EOL) ;;
            mutex_unlock tu ;;
            ret (-1)
        | Some _ =>
            mutex_unlock tu ;;
            safe_mutex_lock tu target ;;
            invalid <-
              (if ptr_eqb tu target then ret true
               else
                 ts <- load target state ;;
                 if negb (state_eqb ts TU_ON_HOOK) then ret true
                 else
                   tp <- load target peer ;;
                   ret (negb (ptr_eqb tp NULL))) ;;
            if (invalid : bool) then
              store tu (set_state TU_BUSY_SIGNAL) ;;
              d <- load tu fd ;;
              notify_client d ("BUSY SIGNAL" +:+ EOL) ;;
              safe_mutex_unlock tu target ;;
              ret (-1)
            else
              store tu (set_peer target) ;;
              store target (set_peer tu) ;;
              tu_ref target ;;
              tu_ref tu ;;
              store tu (set_state TU_RING_BACK) ;;
              store target (set_state TU_RINGING) ;;
              d <- load tu fd ;;
              notify_client d ("RING BACK" +:+ EOL) ;;
              d <- load target fd ;;
              notify_client d ("RINGING" +:+ EOL) ;;
              safe_mutex_unlock tu target ;;
              ret 0
        end
  end.

Definition tu_pickup (tu : ptr) : M Z :=
  match tu with
  | None => ret (-1)
  | Some _ =>
      mutex_lock tu ;;
      s <- load tu state ;;
      match s with
      | TU_ON_HOOK =>
          store tu (set_state TU_DIAL_TONE) ;;
          d <- load tu fd ;;
          notify_client d ("DIAL TONE" +:+ EOL) ;;
          mutex_unlock tu ;;
          ret 0
      | TU_RINGING =>
          p <- load tu peer ;;
          mutex_lock p ;;
          store tu (set_state TU_CONNECTED) ;;
          p <- load tu peer ;;
          e <- load p ext ;;
          d <- load tu fd ;;
          notify_client d (snprintf 15 (connected_line e)) ;;
          p <- load tu peer ;;
          store p (set_state TU_CONNECTED) ;;
          e <- load tu ext ;;
          p <- load tu peer ;;
          d <- load p fd ;;
          notify_client d (snprintf 15 (connected_line e)) ;;
          p <- load tu peer ;;
          mutex_unlock p ;;
          mutex_unlock tu ;;
          ret 0
      | _ =>
          notify_client_of_tu_state tu ;;
          mutex_unlock tu ;;
          ret 0
      end
  end.

(** The end of [tu_hangup] that its three transition branches share. *)
Definition tu_hangup_finish (tu : ptr) : M Z :=
  p <- load tu peer ;;
  tu_unref p ;;
  store tu (set_peer NULL) ;;
  mutex_unlock tu ;;
  ret 0.

Definition tu_hangup (tu : ptr) : M Z :=
  match tu with
  | None => ret (-1)
  | Some _ =>
      mutex_lock tu ;;
      s <- load tu state ;;
      match s with
      | TU_CONNECTED | TU_RINGING =>
          p <- load tu peer ;;
          mutex_lock p ;;
          store tu (set_state TU_ON_HOOK) ;;
          d <- load tu fd ;;
          notify_client d (snprintf 15 (on_hook_line d)) ;;
          p <- load tu peer ;;
          store p (set_state TU_DIAL_TONE) ;;
          p <- load tu peer ;;
          d <- load p fd ;;
          notify_client d ("DIAL TONE" +:+ EOL) ;;
          p <- load tu peer ;;
          store p (set_peer NULL) ;;
          p <- load tu peer ;;
          mutex_unlock p ;;
          tu_hangup_finish tu
      | TU_RING_BACK =>
          p <- load tu peer ;;
          mutex_lock p ;;
          store tu (set_state TU_ON_HOOK) ;;
          d <- load tu fd ;;
          notify_client d (snprintf 15 (on_hook_line d)) ;;
          p <- load tu peer ;;
          store p (set_state TU_ON_HOOK) ;;
          p <- load tu peer ;;
          d <- load p fd ;;
          let buffer := snprintf 15 (on_hook_line d) in
          p <- load tu peer ;;
          d <- load p fd ;;
          notify_client d buffer ;;
          p <- load tu peer ;;
          store p (set_peer NULL) ;;
          p <- load tu peer ;;
          mutex_unlock p ;;
          tu_hangup_finish tu
      | TU_DIAL_TONE | TU_BUSY_SIGNAL | TU_ERROR =>
          store tu (set_state TU_ON_HOOK) ;;
          d <- load tu fd ;;
          notify_client d (snprintf 15 (on_hook_line d)) ;;
          tu_hangup_finish tu
      | TU_ON_HOOK =>
          notify_client_of_tu_state tu ;;
          mutex_unlock tu ;;
          ret (-1)
      end
  end.

(** [msg] is a C string or NULL. *)
Definition tu_chat (tu : ptr) (msg : option string) : M Z :=
  match tu, msg with
  | Some _, Some text =>
      mutex_lock tu ;;
      s <- load tu state ;;
      unconnected <-
        (if negb (state_eqb s TU_CONNECTED) then ret true
         else p <- load tu peer ;; ret (ptr_eqb p NULL)) ;;
      if (unconnected : bool) then
        notify_client_of_tu_state tu ;;
        mutex_unlock tu ;;
        ret (-1)
      else
        mutex_unlock tu ;;
        p <- load tu peer ;;
        safe_mutex_lock tu p ;;
        let message_length := (5 + String.length text + 2 + 1)%nat in
        message <- do_malloc ;;
        match message with
        | None =>
            p <- load tu peer ;;
            safe_mutex_unlock tu p ;;
            ret (-1)
        | Some _ =>
            let message := snprintf message_length ("CHAT " +:+ text +:+ EOL) in
            p <- load tu peer ;;
            e <- load p ext ;;
            notify_client e message ;;
            p <- load tu peer ;;
            e <- load p ext ;;
            d <- load tu fd ;;
            notify_client d (snprintf 15 (connected_line e)) ;;
            p <- load tu peer ;;
            safe_mutex_unlock tu p ;;
            ret 0
        end
  | _, _ => ret (-1)
  end.

(** ** pbx.c

    The functions take the PBX through the pointer [pbx]; every caller
    passes the global [pbx] of the server, which is the [pbx] of the world,
    [None] when that pointer is NULL. *)

Definition set_extensions (v : gmap Z loc) (p : PBX) : PBX :=
  mkPBX v (lock p) (active_tus p).
Definition set_lock (v : bool) (p : PBX) : PBX :=
  mkPBX (extensions p) v (active_tus p).
Definition set_active_tus (v : Z) (p : PBX) : PBX :=
  mkPBX (extensions p) (lock p) v.

(** [pbx->extensions[i] = p] *)
Definition slot_set (i : Z) (p : ptr) (m : gmap Z loc) : gmap Z loc :=
  match p with
  | Some l => <[i := l]> m
  | None => delete i m
  end.

Definition pbx_is_null : M bool :=
  fun w => Ret (bool_decide (pbx w = None)) w.

Definition pbx_load {A} (f : PBX -> A) : M A :=
  fun w =>
    match pbx w with
    | None => Fault NullDeref w
    | Some p => Ret (f p) w
    end.

Definition pbx_store (g : PBX -> PBX) : M unit :=
  fun w =>
    match pbx w with
    | None => Fault NullDeref w
    | Some p => Ret tt (with_pbx (Some (g p)) w)
    end.

(** [pthread_mutex_lock(&pbx->lock)] *)
Definition pbx_lock : M unit :=
  fun w =>
    match pbx w with
    | None => Fault NullDeref w
    | Some p =>
        if lock p then Blocked MPbx w
        else Ret tt (log (EvLock MPbx) (with_pbx (Some (set_lock true p)) w))
    end.

(** [pthread_mutex_unlock(&pbx->lock)] *)
Definition pbx_unlock : M unit :=
  fun w =>
    match pbx w with
    | None => Fault NullDeref w
    | Some p =>
        Ret tt (log (EvUnlock MPbx) (with_pbx (Some (set_lock false p)) w))
    end.

(** The assignments that give the new PBX its first field values. *)
Definition init_pbx (p : PBX) : M unit :=
  fun w => Ret tt (with_pbx (Some p) w).

(** Returns whether the new PBX pointer is non-NULL. *)
Definition pbx_init : M bool :=
  p <- do_malloc ;;
  match p with
  | None => ret false
  | Some _ =>
      init_pbx (mkPBX ∅ false 0) ;;
      ret true
  end.

Definition pbx_register (tu : ptr) (ext0 : Z) : M Z :=
  null <- pbx_is_null ;;
  if (null : bool) || ptr_eqb tu NULL || (ext0 <? 0) || (ext0 >=? PBX_MAX_EXTENSIONS)
  then ret (-1)
  else
    pbx_lock ;;
    slot <- pbx_load (fun p => extensions p !! ext0) ;;
    match slot with
    | Some _ =>
        pbx_unlock ;;
        ret (-1)
    | None =>
        m <- pbx_load extensions ;;
        pbx_store (set_extensions (slot_set ext0 tu m)) ;;
        n <- pbx_load active_tus ;;
        pbx_store (set_active_tus (int_wrap (n + 1))) ;;
        tu_set_extension tu ext0 ;;
        tu_ref tu ;;
        pbx_unlock ;;
        ret 0
    end.

Definition pbx_unregister (tu : ptr) : M Z :=
  pbx_lock ;;
  null <- pbx_is_null ;;
  if (null : bool) || ptr_eqb tu NULL then
    pbx_unlock ;;
    ret (-1)
  else
    e <- tu_extension tu ;;
    unregistered <-
      (if (e <? 0) || (e >=? PBX_MAX_EXTENSIONS) then ret true
       else
         slot <- pbx_load (fun p => extensions p !! e) ;;
         ret (negb (ptr_eqb slot tu))) ;;
    if (unregistered : bool) then
      pbx_unlock ;;
      ret (-1)
    else
      tu_ref tu ;;
      m <- pbx_load extensions ;;
      pbx_store (set_extensions (slot_set e NULL m)) ;;
      n <- pbx_load active_tus ;;
      pbx_store (set_active_tus (int_wrap (n - 1))) ;;
      tu_hangup tu ;;
      tu_unref tu ;;
      n <- pbx_load active_tus ;;
      (if n =? 0 then emit EvSignal else ret tt) ;;
      tu_unref tu ;;
      pbx_unlock ;;
      ret 0.

Definition pbx_dial (tu : ptr) (ext0 : Z) : M Z :=
  null <- pbx_is_null ;;
  if (null : bool) || ptr_eqb tu NULL || (ext0 <? 0) || (ext0 >=? PBX_MAX_EXTENSIONS)
  then ret (-1)
  else
    pbx_lock ;;
    target_tu <- pbx_load (fun p => extensions p !! ext0) ;;
    match target_tu with
    | None =>
        pbx_unlock ;;
        ret (-1)
    | Some _ =>
        tu_ref tu ;;
        tu_ref target_tu ;;
        result <- tu_dial tu target_tu ;;
        tu_unref target_tu ;;
        tu_unref tu ;;
        pbx_unlock ;;
        ret result
    end.

(** ** server.c

    [pbx_client_service] reads the connection in chunks and cuts the bytes
    into the lines that end in [EOL]; [lines] is that sequence of complete
    lines up to the end of the input, each without its terminator. *)

Definition isdigit (c : ascii) : bool :=
  let n := Z.of_nat (nat_of_ascii c) in (48 <=? n) && (n <=? 57).

Fixpoint skip_spaces (s : string) : string :=
  match s with
  | String c s' => if Ascii.eqb c " "%char then skip_spaces s' else s
  | EmptyString => s
  end.

Fixpoint atoi_from (acc : Z) (s : string) : Z :=
  match s with
  | String c s' =>
      if isdigit c
      then atoi_from (10 * acc + (Z.of_nat (nat_of_ascii c) - 48)) s'
      else acc
  | EmptyString => acc
  end.

(** [atoi] on a text that starts with a digit: the value of the leading
    digits, as an [int]. *)
Definition atoi (s : string) : Z := int_wrap (atoi_from 0 s).

Definition after (n : nat) (s : string) : string :=
  String.substring n (String.length s - n) s.

Definition starts_with_digit (s : string) : bool :=
  match s with
  | String c _ => isdigit c
  | EmptyString => false
  end.

(** One pass of the command dispatch on a complete line. *)
Definition service_command (tu : ptr) (command : string) : M unit :=
  if String.eqb command "pickup" then tu_pickup tu ;; ret tt
  else if String.eqb command "hangup" then tu_hangup tu ;; ret tt
  else if String.prefix "dial " command then
    let ext_str := skip_spaces (after 5 command) in
    if starts_with_digit ext_str
    then pbx_dial tu (atoi ext_str) ;; ret tt
    else ret tt
  else if String.prefix "chat " command then
    tu_chat tu (Some (after 5 command)) ;; ret tt
  else ret tt.

Fixpoint service_loop (tu : ptr) (lines : list string) : M unit :=
  match lines with
  | [] => ret tt
  | command :: rest => service_command tu command ;; service_loop tu rest
  end.

Definition pbx_client_service (fd0 : Z) (lines : list string) : M unit :=
  tu <- tu_init fd0 ;;
  match tu with
  | None => sys_close fd0
  | Some _ =>
      r <- pbx_register tu fd0 ;;
      if r <? 0 then
        tu_unref tu ;;
        sys_close fd0
      else
        service_loop tu lines ;;
        pbx_unregister tu ;;
        tu_unref tu ;;
        sys_close fd0
  end.

(** ** Observations on a world and its history *)

(** The texts written to descriptor [d], oldest first, in a history that is
    newest first. *)
Fixpoint written_to (d : Z) (tr : list event) : list string :=
  match tr with
  | [] => []
  | EvWrite d' msg :: tr' =>
      if d' =? d then written_to d tr' ++ [msg] else written_to d tr'
  | _ :: tr' => written_to d tr'
  end.

(** How many times [close(d)] was called. *)
Fixpoint closes_of (d : Z) (tr : list event) : nat :=
  match tr with
  | [] => 0
  | EvClose d' :: tr' => if d' =? d then S (closes_of d tr') else closes_of d tr'
  | _ :: tr' => closes_of d tr'
  end.

(** A world in which nothing has happened: no TU, the PBX as [pbx_init]
    leaves it, every [write] succeeding, [malloc] returning [next]. *)
Definition quiet_world (next : list event -> ptr) : World :=
  {| heap := ∅;
     pbx := Some (mkPBX ∅ false 0);
     trace := [];
     write_fails := fun _ _ => false;
     malloc := next |}.

(** The input and output of a history, without the mutex operations. *)
Fixpoint io_events (tr : list event) : list event :=
  match tr with
  | [] => []
  | (EvWrite _ _ | EvWriteFail _ _ | EvClose _) as e :: tr' => e :: io_events tr'
  | _ :: tr' => io_events tr'
  end.

(** What [notify_client] adds to the history, newest first. *)
Definition notify_events (w : World) (d : Z) (msg : string) : list event :=
  if d <? 0 then []
  else if write_fails w (trace w) d then [EvClose d; EvWriteFail d msg]
  else [EvWrite d msg].

Definition logs (evs : list event) (w : World) : World :=
  {| heap := heap w; pbx := pbx w; trace := evs ++ trace w;
     write_fails := write_fails w; malloc := malloc w |}.

(** Every [write] succeeds. *)
Definition writes_succeed (w : World) : Prop :=
  forall tr d, write_fails w tr d = false.

(** The states in which a TU is a party of a call. *)
Definition in_call (s : TU_STATE) : bool :=
  match s with
  | TU_RINGING | TU_RING_BACK | TU_CONNECTED => true
  | _ => false
  end.





(** The world an outcome ends in. *)
Definition final {A} (o : outcome A) : World :=
  match o with
  | Ret _ w | Blocked _ w | Fault _ w | OutOfFuel w => w
  end.

Definition returned {A} (o : outcome A) : option A :=
  match o with
  | Ret a _ => Some a
  | _ => None
  end.

(** Lock discipline on a history read oldest first, [held] telling whether
    the PBX lock is held at its start.  [tu_locks_outside_pbx]: no TU mutex
    is acquired while the PBX lock is held.  [tu_locks_inside_pbx]: every TU
    mutex is acquired while the PBX lock is held. *)
Fixpoint tu_locks_outside_pbx (held : bool) (evs : list event) : bool :=
  match evs with
  | [] => true
  | EvLock MPbx :: evs' => tu_locks_outside_pbx true evs'
  | EvUnlock MPbx :: evs' => tu_locks_outside_pbx false evs'
  | EvLock (MTu _) :: evs' => negb held && tu_locks_outside_pbx held evs'
  | _ :: evs' => tu_locks_outside_pbx held evs'
  end.

Fixpoint tu_locks_inside_pbx (held : bool) (evs : list event) : bool :=
  match evs with
  | [] => true
  | EvLock MPbx :: evs' => tu_locks_inside_pbx true evs'
  | EvUnlock MPbx :: evs' => tu_locks_inside_pbx false evs'
  | EvLock (MTu _) :: evs' => held && tu_locks_inside_pbx held evs'
  | _ :: evs' => tu_locks_inside_pbx held evs'
  end.

Definition is_pbx_event (e : event) : bool :=
  match e with
  | EvLock MPbx | EvUnlock MPbx => true
  | _ => false
  end.

Definition is_tu_lock (e : event) : bool :=
  match e with
  | EvLock (MTu _) => true
  | _ => false
  end.

(** ** Example worlds *)

(** Two registered clients on descriptors 4 and 5, the first with a dial
    tone, the second on hook; each TU holds the references of its service
    thread and of the registry. *)
Definition two_clients : World :=
  {| heap := {[ 1%positive := mkTU 4 4 2 TU_DIAL_TONE NULL false;
                2%positive := mkTU 5 5 2 TU_ON_HOOK NULL false ]};
     pbx := Some (mkPBX {[ 4 := 1%positive; 5 := 2%positive ]} false 2);
     trace := [];
     write_fails := fun _ _ => false;
     malloc := fun _ => Some 9%positive |}.

(** The same clients after the first has dialled the second. *)
Definition ringing_clients : World :=
  {| heap := {[ 1%positive := mkTU 4 4 3 TU_RING_BACK (Some 2%positive) false;
                2%positive := mkTU 5 5 3 TU_RINGING (Some 1%positive) false ]};
     pbx := Some (mkPBX {[ 4 := 1%positive; 5 := 2%positive ]} false 2);
     trace := [];
     write_fails := fun _ _ => false;
     malloc := fun _ => Some 9%positive |}.

(** The same clients in a call. *)
Definition connected_clients : World :=
  {| heap := {[ 1%positive := mkTU 4 4 3 TU_CONNECTED (Some 2%positive) false;
                2%positive := mkTU 5 5 3 TU_CONNECTED (Some 1%positive) false ]};
     pbx := Some (mkPBX {[ 4 := 1%positive; 5 := 2%positive ]} false 2);
     trace := [];
     write_fails := fun _ _ => false;
     malloc := fun _ => Some 9%positive |}.

(** What closing the descriptor of a TU adds to the history. *)
Definition close_events (d : Z) : list event :=
  if 0 <=? d then [EvClose d] else [].

(** A call that does not return when the mutex it asks for is held. *)
Definition waits_when_held (self : ptr -> M unit) : Prop :=
  forall q w t, heap w !! q = Some t -> mutex t = true ->
    self (Some q) w = Blocked (MTu q) w.

(** No event of the history [evs] is an operation on the PBX lock. *)
Definition quiet_pbx (evs : list event) : bool :=
  forallb (fun e => negb (is_pbx_event e)) evs.

(** A computation that leaves the PBX lock alone, however it ends. *)
Definition no_pbx_events {A} (m : M A) : Prop :=
  forall w, exists evs,
    trace (final (m w)) = (evs ++ trace w)%list /\ quiet_pbx evs = true.

(** The shape, oldest first, of what a thread does from a point where it
    holds the PBX lock: no operation on that lock, except that the last
    event may be its release. *)
Fixpoint section_shape (evs : list event) : bool :=
  match evs with
  | [] => true
  | [EvUnlock MPbx] => true
  | e :: evs' => negb (is_pbx_event e) && section_shape evs'
  end.

Definition locked_section {A} (m : M A) : Prop :=
  forall w, exists evs,
    trace (final (m w)) = (evs ++ trace w)%list /\
    section_shape (rev evs) = true.

(** The line [notify_client_of_tu_state] sends for a TU in state [s] that is
    not connected: ON HOOK with the descriptor [d], or the entry of the
    table. *)
Definition state_line (s : TU_STATE) (d : Z) : string :=
  match s with
  | TU_ON_HOOK => snprintf 64 (on_hook_line d)
  | _ => strncpy 63 (nth (state_index s) state_messages "")
  end.

(** * Reasoning *)

(** ** Integers *)

Lemma int_wrap_id (z : Z) : in_int z -> int_wrap z = z.
Proof.
  unfold in_int, int_wrap, INT_MIN, INT_MAX. intros H.
  rewrite Z.mod_small by lia. lia.
Qed.

Lemma ptr_eqb_refl (p : ptr) : ptr_eqb p p = true.
Proof. destruct p; simpl; [apply Pos.eqb_refl | reflexivity]. Qed.

Lemma ptr_eqb_ne (a b : loc) : a <> b -> ptr_eqb (Some a) (Some b) = false.
Proof. intros H. simpl. by apply Pos.eqb_neq. Qed.

(** ** Running the monad one step at a time *)

Lemma notify_client_eq d msg w :
  notify_client d msg w = Ret tt (logs (notify_events w d msg) w).
Proof.
  unfold notify_client, notify_events, logs, bind, sys_write_failed,
    sys_close, emit, ret, log.
  destruct (d <? 0); [by destruct w|].
  destruct (write_fails w (trace w) d); reflexivity.
Qed.

Lemma notify_events_ok d msg w :
  0 <= d -> write_fails w (trace w) d = false ->
  notify_events w d msg = [EvWrite d msg].
Proof.
  intros Hd Hw. unfold notify_events.
  destruct (Z.ltb_spec d 0); [lia|]. by rewrite Hw.
Qed.

Section Run.
Context {A B : Type} (k : A -> M B) (w : World).

Lemma run_ret (a : A) : bind (ret a) k w = k a w.
Proof. reflexivity. Qed.

Lemma run_assoc {C} (m : M C) (f : C -> M A) :
  bind (bind m f) k w = bind m (fun x => bind (f x) k) w.
Proof. unfold bind. by destruct (m w). Qed.

Lemma run_load l (f : TU -> A) t :
  heap w !! l = Some t -> bind (load (Some l) f) k w = k (f t) w.
Proof. intros H. unfold bind, load. by rewrite H. Qed.

Lemma run_tail (m : M A) : m w = bind m ret w.
Proof. unfold bind, ret. by destruct (m w). Qed.

Lemma run_malloc (k' : ptr -> M B) :
  bind do_malloc k' w = k' (malloc w (trace w)) w.
Proof. reflexivity. Qed.

Lemma run_pbx_is_null (k' : bool -> M B) p :
  pbx w = Some p -> bind pbx_is_null k' w = k' false w.
Proof. intros H. unfold bind, pbx_is_null. by rewrite H. Qed.

Lemma run_pbx_load (f : PBX -> A) p :
  pbx w = Some p -> bind (pbx_load f) k w = k (f p) w.
Proof. intros H. unfold bind, pbx_load. by rewrite H. Qed.
End Run.

Section RunUnit.
Context {B : Type} (k : unit -> M B) (w : World).

Lemma run_store l g t :
  heap w !! l = Some t ->
  bind (store (Some l) g) k w = k tt (with_heap (<[l := g t]> (heap w)) w).
Proof. intros H. unfold bind, store. by rewrite H. Qed.

Lemma run_lock l t :
  heap w !! l = Some t -> mutex t = false ->
  bind (mutex_lock (Some l)) k w
  = k tt (log (EvLock (MTu l))
            (with_heap (<[l := set_mutex true t]> (heap w)) w)).
Proof. intros H Hm. unfold bind, mutex_lock. by rewrite H, Hm. Qed.

Lemma run_lock_held l t :
  heap w !! l = Some t -> mutex t = true ->
  bind (mutex_lock (Some l)) k w = Blocked (MTu l) w.
Proof. intros H Hm. unfold bind, mutex_lock. by rewrite H, Hm. Qed.

Lemma run_lock_dangling l :
  heap w !! l = None ->
  bind (mutex_lock (Some l)) k w = Fault (UseAfterFree l) w.
Proof. intros H. unfold bind, mutex_lock. by rewrite H. Qed.

Lemma run_blocked (m : M unit) x w' :
  m w = Blocked x w' -> bind m k w = Blocked x w'.
Proof. intros H. unfold bind. by rewrite H. Qed.

Lemma run_head (m m' : M unit) :
  m w = m' w -> bind m k w = bind m' k w.
Proof. intros H. unfold bind. by rewrite H. Qed.

Lemma run_unlock l t :
  heap w !! l = Some t ->
  bind (mutex_unlock (Some l)) k w
  = k tt (log (EvUnlock (MTu l))
            (with_heap (<[l := set_mutex false t]> (heap w)) w)).
Proof. intros H. unfold bind, mutex_unlock. by rewrite H. Qed.

Lemma run_free l t :
  heap w !! l = Some t ->
  bind (free (Some l)) k w = k tt (with_heap (delete l (heap w)) w).
Proof. intros H. unfold bind, free. by rewrite H. Qed.

Lemma run_emit e : bind (emit e) k w = k tt (log e w).
Proof. reflexivity. Qed.

Lemma run_init_block l t :
  bind (init_block l t) k w = k tt (with_heap (<[l := t]> (heap w)) w).
Proof. reflexivity. Qed.

Lemma run_notify d msg :
  bind (notify_client d msg) k w = k tt (logs (notify_events w d msg) w).
Proof. unfold bind. by rewrite notify_client_eq. Qed.

Lemma run_notify_ok d msg :
  0 <= d -> write_fails w (trace w) d = false ->
  bind (notify_client d msg) k w = k tt (log (EvWrite d msg) w).
Proof.
  intros. rewrite run_notify. by rewrite notify_events_ok.
Qed.

Lemma run_pbx_store g p :
  pbx w = Some p -> bind (pbx_store g) k w = k tt (with_pbx (Some (g p)) w).
Proof. intros H. unfold bind, pbx_store. by rewrite H. Qed.

Lemma run_pbx_lock p :
  pbx w = Some p -> lock p = false ->
  bind pbx_lock k w
  = k tt (log (EvLock MPbx) (with_pbx (Some (set_lock true p)) w)).
Proof. intros H Hl. unfold bind, pbx_lock. by rewrite H, Hl. Qed.

Lemma run_pbx_unlock p :
  pbx w = Some p ->
  bind pbx_unlock k w
  = k tt (log (EvUnlock MPbx) (with_pbx (Some (set_lock false p)) w)).
Proof. intros H. unfold bind, pbx_unlock. by rewrite H. Qed.
End RunUnit.

Ltac world_cbn :=
  cbn [heap pbx trace write_fails malloc with_heap with_pbx log logs
       fd ext ref_count state peer mutex
       set_fd set_ext set_ref_count set_state set_peer set_mutex
       extensions lock active_tus set_extensions set_lock set_active_tus
       state_eqb state_index Nat.eqb ptr_eqb ptr_ltb negb orb andb NULL
       in_call].

Ltac solve_lookup :=
  world_cbn;
  repeat first
    [ rewrite lookup_insert_eq
    | rewrite lookup_insert_ne by congruence
    | rewrite lookup_delete_ne by congruence ];
  first [ reflexivity | eassumption ].

Ltac side :=
  first
    [ solve_lookup
    | world_cbn;
      first
        [ reflexivity | eassumption | lia
        | match goal with H : writes_succeed _ |- _ => apply H end ] ].

Ltac run_step :=
  first
    [ progress world_cbn
    | rewrite run_assoc
    | rewrite run_ret
    | rewrite run_emit
    | rewrite run_init_block
    | rewrite run_malloc
    | erewrite run_load by side
    | erewrite run_store by side
    | erewrite run_lock by side
    | erewrite run_unlock by side
    | erewrite run_free by side
    | erewrite run_pbx_is_null by side
    | erewrite run_pbx_load by side
    | erewrite run_pbx_store by side
    | erewrite run_pbx_lock by side
    | erewrite run_pbx_unlock by side
    | rewrite run_notify_ok by side
    | rewrite run_notify
    | progress unfold sys_close, mutex_destroy, safe_mutex_lock,
        safe_mutex_unlock, tu_ref, notify_client_of_tu_state,
        tu_hangup_finish
    | rewrite (run_tail _ (store _ _))
    | rewrite (run_tail _ (free _))
    | rewrite (run_tail _ (mutex_unlock _))
    | rewrite (run_tail _ (sys_close _))
    | rewrite (run_tail _ (notify_client _ _))
    | progress change (@ret ?A ?a ?w) with (@Ret A a w) ].

Ltac run := repeat run_step.

(** ** [tu_unref] *)

Lemma set_roundtrip t v :
  mutex t = false ->
  set_mutex false (set_ref_count v (set_mutex true t)) = set_ref_count v t.
Proof. destruct t; simpl; by intros ->. Qed.


Lemma tu_unref_fuel_waits n : waits_when_held (tu_unref_fuel (S n)).
Proof.
  intros q w t H Hm. cbn [tu_unref_fuel tu_unref_body].
  by erewrite run_lock_held.
Qed.

(** [tu_unref_body] does the same whatever stands for the nested call, as
    long as that call waits for a held mutex, and never runs out of fuel. *)
Lemma tu_unref_body_stable self self' tu w :
  waits_when_held self -> waits_when_held self' ->
  tu_unref_body self tu w = tu_unref_body self' tu w /\
  forall w', tu_unref_body self tu w <> OutOfFuel w'.
Proof.
  intros Hs Hs'. destruct tu as [l|]; [|done].
  cbn [tu_unref_body].
  destruct (heap w !! l) as [[f e r s p m]|] eqn:Hl;
    [|by rewrite !run_lock_dangling].
  destruct m; [by erewrite !run_lock_held by side|].
  run. destruct (int_wrap (r - 1) =? 0); [|done].
  run. destruct p as [q|]; run.
  - destruct (decide (q = l)) as [->|Hne].
    + run. erewrite !run_blocked; [done | eapply Hs'; side | eapply Hs; side].
    + destruct (heap w !! q) as [[f' e' r' s' p' m']|] eqn:Hq.
      * destruct m'; [by erewrite !run_lock_held by side|].
        run.
        erewrite !run_blocked; [done | eapply Hs'; side | eapply Hs; side].
      * rewrite !run_lock_dangling by side. done.
  - destruct (0 <=? f); run; done.
Qed.

Lemma tu_unref_fuel_enough n tu w :
  tu_unref_fuel (2 + n) tu w = tu_unref tu w /\
  forall w', tu_unref tu w <> OutOfFuel w'.
Proof.
  change (tu_unref_body (tu_unref_fuel (S n)) tu w
          = tu_unref_body (tu_unref_fuel 1) tu w /\
          forall w', tu_unref_body (tu_unref_fuel 1) tu w <> OutOfFuel w').
  split.
  - apply (tu_unref_body_stable _ _ tu w); apply tu_unref_fuel_waits.
  - apply (tu_unref_body_stable _ (tu_unref_fuel 1) tu w);
      apply tu_unref_fuel_waits.
Qed.

Lemma tu_unref_unfold tu : tu_unref tu = tu_unref_body (tu_unref_fuel 1) tu.
Proof. reflexivity. Qed.

(** The count stays above zero: the TU is kept. *)
Lemma tu_unref_keep w l t :
  heap w !! l = Some t -> mutex t = false ->
  int_wrap (ref_count t - 1) <> 0 ->
  tu_unref (Some l) w
  = Ret tt
      {| heap := <[l := set_ref_count (int_wrap (ref_count t - 1)) t]> (heap w);
         pbx := pbx w;
         trace := EvUnlock (MTu l) :: EvLock (MTu l) :: trace w;
         write_fails := write_fails w;
         malloc := malloc w |}.
Proof.
  intros H Hm Hr. apply Z.eqb_neq in Hr.
  rewrite tu_unref_unfold. cbn [tu_unref_body]. run. rewrite Hr. run.
  rewrite !insert_insert_eq, set_roundtrip by done. reflexivity.
Qed.

(** The count reaches zero and there is no peer: the descriptor is closed
    and the TU freed. *)
Lemma tu_unref_free w l t :
  heap w !! l = Some t -> mutex t = false ->
  int_wrap (ref_count t - 1) = 0 -> peer t = NULL ->
  tu_unref (Some l) w
  = Ret tt
      {| heap := delete l (heap w);
         pbx := pbx w;
         trace := close_events (fd t)
                    ++ EvUnlock (MTu l) :: EvLock (MTu l) :: trace w;
         write_fails := write_fails w;
         malloc := malloc w |}.
Proof.
  destruct t as [f e r s p m]. cbn [mutex ref_count peer fd].
  intros H -> Hr ->.
  rewrite tu_unref_unfold. cbn [tu_unref_body]. run.
  rewrite Hr, Z.eqb_refl. run.
  unfold close_events. destruct (0 <=? f); run;
    by rewrite !delete_insert_eq.
Qed.

(** The count reaches zero while there is a peer: the call does not
    return. *)
Lemma tu_unref_peer_stuck w l t q :
  heap w !! l = Some t -> mutex t = false ->
  int_wrap (ref_count t - 1) = 0 -> peer t = Some q ->
  returned (tu_unref (Some l) w) = None.
Proof.
  destruct t as [f e r s p m]. cbn [mutex ref_count peer fd].
  intros H -> Hr ->.
  rewrite tu_unref_unfold. cbn [tu_unref_body]. run.
  rewrite Hr, Z.eqb_refl. run.
  destruct (decide (q = l)) as [->|Hne].
  - run. erewrite run_blocked; [done | eapply tu_unref_fuel_waits; side].
  - destruct (heap w !! q) as [[f' e' r' s' p' m']|] eqn:Hq.
    + destruct m'; [by erewrite !run_lock_held by side|].
      run. erewrite run_blocked; [done | eapply tu_unref_fuel_waits; side].
    + by rewrite !run_lock_dangling by side.
Qed.


Section RunUnref.
Context {B : Type} (k : unit -> M B) (w : World).

Lemma run_unref_null : bind (tu_unref NULL) k w = k tt w.
Proof. reflexivity. Qed.

Lemma run_unref_keep l t :
  heap w !! l = Some t -> mutex t = false ->
  int_wrap (ref_count t - 1) <> 0 ->
  bind (tu_unref (Some l)) k w
  = k tt
      {| heap := <[l := set_ref_count (int_wrap (ref_count t - 1)) t]> (heap w);
         pbx := pbx w;
         trace := EvUnlock (MTu l) :: EvLock (MTu l) :: trace w;
         write_fails := write_fails w;
         malloc := malloc w |}.
Proof. intros. unfold bind at 1. by erewrite tu_unref_keep. Qed.

Lemma run_unref_free l t :
  heap w !! l = Some t -> mutex t = false ->
  int_wrap (ref_count t - 1) = 0 -> peer t = NULL ->
  bind (tu_unref (Some l)) k w
  = k tt
      {| heap := delete l (heap w);
         pbx := pbx w;
         trace := close_events (fd t)
                    ++ EvUnlock (MTu l) :: EvLock (MTu l) :: trace w;
         write_fails := write_fails w;
         malloc := malloc w |}.
Proof. intros. unfold bind at 1. by erewrite tu_unref_free. Qed.
End RunUnref.

Ltac run_unref :=
  first
    [ rewrite run_unref_null
    | erewrite run_unref_keep by side
    | erewrite run_unref_free by side ].

Ltac run ::= repeat first [ run_step | run_unref ].

Lemma int_wrap_pred (n : Z) : 1 < n <= INT_MAX -> int_wrap (n - 1) = n - 1.
Proof. intros H. apply int_wrap_id. unfold in_int, INT_MIN, INT_MAX in *. lia. Qed.

Lemma int_wrap_succ (n : Z) : 0 <= n < INT_MAX -> int_wrap (n + 1) = n + 1.
Proof. intros H. apply int_wrap_id. unfold in_int, INT_MIN, INT_MAX in *. lia. Qed.

(** ** Strings *)

Lemma substring_all (s : string) (n : nat) :
  (String.length s <= n)%nat -> String.substring 0 n s = s.
Proof.
  revert n. induction s as [|c s IH]; intros [|n] Hn; simpl in *;
    try reflexivity; try lia.
  f_equal. apply IH. lia.
Qed.

Lemma length_append (s t : string) :
  String.length (s +:+ t) = (String.length s + String.length t)%nat.
Proof. induction s; simpl; [reflexivity | by rewrite IHs]. Qed.

(** The buffer [tu_chat] allocates holds the whole line. *)
Lemma chat_line_fits (text : string) :
  snprintf (5 + String.length text + 2 + 1) ("CHAT " +:+ text +:+ EOL)
  = "CHAT " +:+ text +:+ EOL.
Proof.
  unfold snprintf. apply substring_all.
  rewrite !length_append. simpl. lia.
Qed.

(** ** Creation of a TU *)

Lemma tu_init_spec (w : World) (fd0 : Z) (l : loc) :
  malloc w (trace w) = Some l ->
  tu_init fd0 w
  = Ret (Some l)
      {| heap := <[l := mkTU fd0 fd0 1 TU_ON_HOOK NULL false]> (heap w);
         pbx := pbx w;
         trace := EvUnlock (MTu l)
                  :: notify_events (log (EvLock (MTu l)) w) fd0
                       (snprintf 15 (on_hook_line fd0))
                  ++ EvLock (MTu l) :: trace w;
         write_fails := write_fails w;
         malloc := malloc w |}.
Proof.
  intros Hm. unfold tu_init. run. rewrite Hm. run.
  unfold notify_events. world_cbn.
  by rewrite insert_insert_eq.
Qed.

(** * The claims *)

(** ** Hanging up a ringing TU *)

(** C1, as the specification states it, does not hold: the closed statement
    that every hangup of a ringing TU leaves its ring-back peer on hook is
    refuted by the two clients of [ringing_clients], where the peer ends
    with a dial tone. *)
Lemma hangup_ringing_peer_on_hook_refuted :
  ~ (forall w a b ta tb,
       heap w !! a = Some ta -> heap w !! b = Some tb ->
       state ta = TU_RINGING -> peer ta = Some b ->
       state tb = TU_RING_BACK -> peer tb = Some a ->
       exists w' ta' tb',
         tu_hangup (Some a) w = Ret 0 w' /\
         heap w' !! a = Some ta' /\ heap w' !! b = Some tb' /\
         state ta' = TU_ON_HOOK /\ state tb' = TU_ON_HOOK).
Proof.
  intros H.
  destruct (H ringing_clients 2%positive 1%positive
              (mkTU 5 5 3 TU_RINGING (Some 1%positive) false)
              (mkTU 4 4 3 TU_RING_BACK (Some 2%positive) false))
    as (w' & ta' & tb' & Hrun & _ & Hb & _ & Hs); try reflexivity.
  apply (f_equal final) in Hrun. cbn [final] in Hrun. subst w'.
  vm_compute in Hb. injection Hb as <-. discriminate Hs.
Qed.

(** C1 (as amended): a hangup on a ringing TU [a] whose peer [b] hears the
    ring back puts [a] on hook and gives [b] a dial tone, as the comment of
    [tu_hangup] says; both peer links are cleared, [b] loses the reference
    that [a] held, and each client is sent the line of its new state. *)
Theorem hangup_ringing_peer_dial_tone
    (w : World) (a b : loc) (fa ea ra fb eb rb : Z) :
  a <> b ->
  heap w !! a = Some (mkTU fa ea ra TU_RINGING (Some b) false) ->
  heap w !! b = Some (mkTU fb eb rb TU_RING_BACK (Some a) false) ->
  0 <= fa -> 0 <= fb -> 1 < rb <= INT_MAX ->
  writes_succeed w ->
  exists w',
    tu_hangup (Some a) w = Ret 0 w' /\
    heap w' !! a = Some (mkTU fa ea ra TU_ON_HOOK NULL false) /\
    heap w' !! b = Some (mkTU fb eb (rb - 1) TU_DIAL_TONE NULL false) /\
    (forall c, c <> a -> c <> b -> heap w' !! c = heap w !! c) /\
    io_events (trace w')
    = EvWrite fb ("DIAL TONE" +:+ EOL)
      :: EvWrite fa (snprintf 15 (on_hook_line fa))
      :: io_events (trace w).
Proof.
  intros Hab Ha Hb Hfa Hfb Hrb Hw.
  assert (Hk : int_wrap (rb - 1) <> 0) by (rewrite int_wrap_pred; lia).
  unfold tu_hangup. run.
  eexists. split; [reflexivity|]. world_cbn.
  rewrite int_wrap_pred by done.
  split; [|split; [|split]].
  - solve_lookup.
  - solve_lookup.
  - intros c Hca Hcb. by rewrite !lookup_insert_ne by congruence.
  - reflexivity.
Qed.

Lemma hangup_ringing_peer_dial_tone_witness :
  exists w',
    tu_hangup (Some 2%positive) ringing_clients = Ret 0 w' /\
    heap w' !! 2%positive = Some (mkTU 5 5 3 TU_ON_HOOK NULL false) /\
    heap w' !! 1%positive = Some (mkTU 4 4 (3 - 1) TU_DIAL_TONE NULL false) /\
    (forall c, c <> 2%positive -> c <> 1%positive ->
       heap w' !! c = heap ringing_clients !! c) /\
    io_events (trace w')
    = EvWrite 4 ("DIAL TONE" +:+ EOL)
      :: EvWrite 5 (snprintf 15 (on_hook_line 5))
      :: io_events (trace ringing_clients).
Proof.
  apply (hangup_ringing_peer_dial_tone ringing_clients 2%positive 1%positive
           5 5 3 4 4 3).
  - discriminate.
  - reflexivity.
  - reflexivity.
  - lia.
  - lia.
  - unfold INT_MAX. lia.
  - intros tr d. reflexivity.
Defined.

(** ** Dialling an extension that nobody has *)

(** C2 on the code: with client 4 hearing the dial tone and nobody
    registered at extension 99, [pbx_dial] returns -1 after taking and
    releasing the PBX lock: the TU still has its dial tone and nothing was
    written to its client, although [tu_dial] with a NULL target, which
    [pbx_dial] never calls, would give the ERROR state and line. *)
Theorem dial_unregistered_leaves_dial_tone :
  let o := pbx_dial (Some 1%positive) 99 two_clients in
  returned o = Some (-1) /\
  heap (final o) !! 1%positive = Some (mkTU 4 4 2 TU_DIAL_TONE NULL false) /\
  written_to 4 (trace (final o)) = [] /\
  trace (final o) = [EvUnlock MPbx; EvLock MPbx] /\
  let o' := tu_dial (Some 1%positive) NULL two_clients in
  returned o' = Some (-1) /\
  heap (final o') !! 1%positive = Some (mkTU 4 4 2 TU_ERROR NULL false) /\
  written_to 4 (trace (final o')) = ["ERROR" +:+ EOL].
Proof. vm_compute. repeat split. Qed.

(** ** The lines sent to a client *)

(** C3 on the code: a command that changes nothing is answered through
    [notify_client_of_tu_state], whose table spells the states with an
    underscore.  A pickup with the dial tone on is answered "DIAL_TONE", a
    pickup during ring back "RING_BACK", and a pickup on a busy signal
    "BUSY_SIGNAL", while the transitions into these states send
    "DIAL TONE", "RING BACK" and "BUSY SIGNAL".  The 15-byte buffer of
    [tu_pickup] also cuts the line feed off "CONNECTED 100". *)
Theorem unchanged_state_lines_have_underscores :
  written_to 4 (trace (final (tu_pickup (Some 1%positive) two_clients)))
  = ["DIAL_TONE" +:+ EOL] /\
  written_to 4 (trace (final (tu_pickup (Some 1%positive) ringing_clients)))
  = ["RING_BACK" +:+ EOL] /\
  written_to 4
    (trace (final (tu_pickup (Some 1%positive)
                     (with_heap
                        (<[1%positive := mkTU 4 4 2 TU_BUSY_SIGNAL NULL false]>
                           (heap two_clients)) two_clients))))
  = ["BUSY_SIGNAL" +:+ EOL] /\
  written_to 4
    (trace (final ((tu_hangup (Some 1%positive) ;; tu_pickup (Some 1%positive))
                     two_clients)))
  = ["ON HOOK 4" +:+ EOL; "DIAL TONE" +:+ EOL] /\
  written_to 5
    (trace (final (tu_pickup (Some 2%positive)
                     (with_heap
                        (<[1%positive :=
                             mkTU 100 100 3 TU_RING_BACK (Some 2%positive) false]>
                           (heap ringing_clients)) ringing_clients))))
  = ["CONNECTED 100" +:+ String CR EmptyString].
Proof. vm_compute. repeat split. Qed.

(** ** Peer references *)

(** C5 on the code: client 4 dials client 5 and hangs up.  Both peer links
    are cleared and the callee's count is back at 2, but the caller's count,
    raised to 3 by the dial, stays at 3: [tu_hangup] releases the reference
    on the peer only. *)
Theorem hangup_keeps_own_peer_reference :
  let o := (tu_dial (Some 1%positive) (Some 2%positive) ;;
            tu_hangup (Some 1%positive)) two_clients in
  returned o = Some 0 /\
  heap (final o) !! 1%positive = Some (mkTU 4 4 3 TU_ON_HOOK NULL false) /\
  heap (final o) !! 2%positive = Some (mkTU 5 5 2 TU_ON_HOOK NULL false).
Proof. vm_compute. repeat split. Qed.

(** ** Closing the descriptor *)

(** C6 on the code: a client connects on descriptor 4 and disconnects at
    once.  The last [tu_unref] of the service thread closes the descriptor
    and frees the TU, and the thread then closes the descriptor again.
    When a write fails, [notify_client] closes the descriptor while the TU
    still has all its references, and the two later calls follow. *)
Theorem service_closes_descriptor_twice :
  let o := pbx_client_service 4 [] (quiet_world (fun _ => Some 1%positive)) in
  returned o = Some tt /\
  heap (final o) = ∅ /\
  closes_of 4 (trace (final o)) = 2%nat /\
  let broken :=
    {| heap := ∅; pbx := Some (mkPBX ∅ false 0); trace := [];
       write_fails := fun _ _ => true;
       malloc := fun _ => Some 1%positive |} in
  closes_of 4 (trace (final (tu_init 4 broken))) = 1%nat /\
  (ref_count <$> heap (final (tu_init 4 broken)) !! 1%positive) = Some 1 /\
  closes_of 4 (trace (final (pbx_client_service 4 [] broken))) = 4%nat.
Proof. vm_compute. repeat split. Qed.

(** ** Setting the extension *)




(** On a TU whose extension is still -1 the call assigns the extension and
    sends the line. *)
Lemma tu_set_extension_unset (w : World) (l : loc) (e f r : Z)
    (s : TU_STATE) (p : ptr) (m : bool) :
  heap w !! l = Some (mkTU f (-1) r s p m) ->
  tu_set_extension (Some l) e w
  = Ret 0 (logs (notify_events w f (snprintf 15 (on_hook_line e)))
             (with_heap (<[l := mkTU f e r s p m]> (heap w)) w)).
Proof.
  intros H. unfold tu_set_extension. run. rewrite Z.eqb_refl. run.
  unfold notify_events. world_cbn. reflexivity.
Qed.

(** ** Dialling and hanging up *)

(** C9: when [a] has the dial tone and the distinct TU [x] is on hook
    without a peer, a dial of [x] by [a] followed by a hangup of [a]
    returns, and leaves both on hook with no peer.  The count of [x] is
    what it was; the count of [a] is one higher. *)
Theorem dial_then_hangup_on_hook
    (w : World) (a x : loc) (fa ea ra fx ex rx : Z) (pa : ptr) :
  a <> x ->
  heap w !! a = Some (mkTU fa ea ra TU_DIAL_TONE pa false) ->
  heap w !! x = Some (mkTU fx ex rx TU_ON_HOOK NULL false) ->
  0 <= ra < INT_MAX -> 0 < rx < INT_MAX ->
  exists w',
    (tu_dial (Some a) (Some x) ;; tu_hangup (Some a)) w = Ret 0 w' /\
    heap w' !! a = Some (mkTU fa ea (ra + 1) TU_ON_HOOK NULL false) /\
    heap w' !! x = Some (mkTU fx ex rx TU_ON_HOOK NULL false) /\
    (forall c, c <> a -> c <> x -> heap w' !! c = heap w !! c).
Proof.
  intros Hax Ha Hx Hra Hrx.
  assert (Hk : int_wrap (int_wrap (rx + 1) - 1) <> 0).
  { rewrite int_wrap_succ by lia. rewrite int_wrap_id; [lia|].
    unfold in_int, INT_MIN, INT_MAX in *. lia. }
  assert (Hk' : int_wrap (int_wrap (rx + 1) - 1) = rx).
  { rewrite int_wrap_succ by lia. rewrite int_wrap_id; [lia|].
    unfold in_int, INT_MIN, INT_MAX in *. lia. }
  unfold tu_dial, tu_hangup. run.
  rewrite (proj2 (Pos.eqb_neq a x)) by done.
  destruct (a <? x)%positive; run;
    (eexists; split; [reflexivity|]; world_cbn;
     rewrite Hk', int_wrap_succ by lia;
     split; [solve_lookup|]; split; [solve_lookup|];
     intros c Hca Hcx; by rewrite !lookup_insert_ne by congruence).
Qed.

Lemma dial_then_hangup_on_hook_witness :
  exists w',
    (tu_dial (Some 1%positive) (Some 2%positive) ;; tu_hangup (Some 1%positive))
      two_clients = Ret 0 w' /\
    heap w' !! 1%positive = Some (mkTU 4 4 (2 + 1) TU_ON_HOOK NULL false) /\
    heap w' !! 2%positive = Some (mkTU 5 5 2 TU_ON_HOOK NULL false) /\
    (forall c, c <> 1%positive -> c <> 2%positive ->
       heap w' !! c = heap two_clients !! c).
Proof.
  apply (dial_then_hangup_on_hook two_clients 1%positive 2%positive
           4 4 2 5 5 2 NULL).
  - discriminate.
  - reflexivity.
  - reflexivity.
  - unfold INT_MAX. lia.
  - unfold INT_MAX. lia.
Defined.

(** ** Chat *)

(** The first two steps of the service thread: the TU made for descriptor
    [fd0] is registered at extension [fd0], which is also the extension the
    TU has; [tu_set_extension] in [pbx_register] changes nothing. *)
Lemma init_then_register (w : World) (p : PBX) (fd0 : Z) (l : loc) :
  pbx w = Some p -> lock p = false ->
  0 <= fd0 < PBX_MAX_EXTENSIONS ->
  extensions p !! fd0 = None ->
  malloc w (trace w) = Some l ->
  exists w2 p2,
    (tu <- tu_init fd0 ;; pbx_register tu fd0) w = Ret 0 w2 /\
    heap w2 !! l = Some (mkTU fd0 fd0 2 TU_ON_HOOK NULL false) /\
    pbx w2 = Some p2 /\ extensions p2 !! fd0 = Some l.
Proof.
  intros Hp Hl Hfd Hslot Hm.
  unfold bind at 1. rewrite (tu_init_spec _ _ _ Hm).
  unfold pbx_register, tu_set_extension. run.
  destruct (Z.ltb_spec fd0 0); [lia|].
  rewrite Z.geb_leb. destruct (Z.leb_spec PBX_MAX_EXTENSIONS fd0); [lia|].
  run. rewrite Hslot. run.
  destruct (Z.eqb_spec fd0 (-1)); [lia|]. run.
  eexists _, _. split; [reflexivity|]. world_cbn.
  split; [solve_lookup|]. split; [reflexivity|].
  world_cbn. unfold slot_set. by rewrite lookup_insert_eq.
Qed.

(** C10: a chat from the connected TU [a] is written to the descriptor whose
    number is the extension [eb] of the peer, whatever descriptor [fb] the
    peer has, and the sender's line CONNECTED goes to the sender's own
    descriptor.  The line reaches the peer's client because extension and
    descriptor are the same number: the TU that [tu_init] makes has the
    descriptor as its extension, and [pbx_register] called with the
    descriptor, as the service thread calls it, files it under that number
    and leaves the extension as it is. *)
Theorem chat_is_written_to_peer_extension
    (w : World) (a b : loc) (fa ea ra fb eb rb : Z)
    (sb : TU_STATE) (pb : ptr) (text : string) :
  a <> b ->
  heap w !! a = Some (mkTU fa ea ra TU_CONNECTED (Some b) false) ->
  heap w !! b = Some (mkTU fb eb rb sb pb false) ->
  0 <= fa -> 0 <= eb ->
  writes_succeed w ->
  (forall tr, malloc w tr <> NULL) ->
  (exists w',
     tu_chat (Some a) (Some text) w = Ret 0 w' /\
     heap w' = heap w /\
     io_events (trace w')
     = EvWrite fa (snprintf 15 (connected_line eb))
       :: EvWrite eb ("CHAT " +:+ text +:+ EOL)
       :: io_events (trace w)) /\
  (forall w0 p fd0 l,
     pbx w0 = Some p -> lock p = false ->
     0 <= fd0 < PBX_MAX_EXTENSIONS ->
     extensions p !! fd0 = None ->
     malloc w0 (trace w0) = Some l ->
     exists w2 p2,
       (tu <- tu_init fd0 ;; pbx_register tu fd0) w0 = Ret 0 w2 /\
       heap w2 !! l = Some (mkTU fd0 fd0 2 TU_ON_HOOK NULL false) /\
       pbx w2 = Some p2 /\ extensions p2 !! fd0 = Some l).
Proof.
  intros Hab Ha Hb Hfa Heb Hw Hm. split.
  - unfold tu_chat. run.
    destruct (a <? b)%positive eqn:Hlt; run;
      (match goal with
       | |- context [malloc w ?tr] =>
           destruct (malloc w tr) as [q|] eqn:Hq; [|by apply Hm in Hq]
       end;
       run; rewrite Hlt; run; rewrite chat_line_fits;
       eexists; split; [reflexivity|]; world_cbn; split; [|reflexivity];
       apply map_eq; intros c;
       destruct (decide (c = a)) as [->|];
       [|destruct (decide (c = b)) as [->|]];
       symmetry; solve_lookup).
  - intros w0 p fd0 l. apply init_then_register.
Qed.

Lemma chat_is_written_to_peer_extension_witness :
  (exists w',
     tu_chat (Some 1%positive) (Some "hi") connected_clients = Ret 0 w' /\
     heap w' = heap connected_clients /\
     io_events (trace w')
     = EvWrite 4 (snprintf 15 (connected_line 5))
       :: EvWrite 5 ("CHAT " +:+ "hi" +:+ EOL)
       :: io_events (trace connected_clients)) /\
  (forall w0 p fd0 l,
     pbx w0 = Some p -> lock p = false ->
     0 <= fd0 < PBX_MAX_EXTENSIONS ->
     extensions p !! fd0 = None ->
     malloc w0 (trace w0) = Some l ->
     exists w2 p2,
       (tu <- tu_init fd0 ;; pbx_register tu fd0) w0 = Ret 0 w2 /\
       heap w2 !! l = Some (mkTU fd0 fd0 2 TU_ON_HOOK NULL false) /\
       pbx w2 = Some p2 /\ extensions p2 !! fd0 = Some l).
Proof.
  apply (chat_is_written_to_peer_extension connected_clients
           1%positive 2%positive 4 4 3 5 5 3 TU_CONNECTED (Some 1%positive) "hi").
  - discriminate.
  - reflexivity.
  - reflexivity.
  - lia.
  - lia.
  - intros tr d. reflexivity.
  - intros tr. discriminate.
Defined.

(** ** The PBX lock and the TU mutexes *)

Lemma final_bind {A B} (m : M A) (k : A -> M B) w :
  final (bind m k w)
  = match m w with
    | Ret a w' => final (k a w')
    | o => final o
    end.
Proof. unfold bind. by destruct (m w). Qed.

Lemma quiet_pbx_app evs1 evs2 :
  quiet_pbx (evs1 ++ evs2) = quiet_pbx evs1 && quiet_pbx evs2.
Proof. apply forallb_app. Qed.

Lemma no_pbx_ret {A} (a : A) : no_pbx_events (ret a).
Proof. intros w. by exists []. Qed.

Lemma no_pbx_bind {A B} (m : M A) (k : A -> M B) :
  no_pbx_events m -> (forall a, no_pbx_events (k a)) ->
  no_pbx_events (bind m k).
Proof.
  intros Hm Hk w. rewrite final_bind.
  destruct (Hm w) as (evs & Hevs & Hq).
  destruct (m w) as [a w'| | |]; cbn [final] in *; eauto.
  destruct (Hk a w') as (evs' & Hevs' & Hq').
  exists (evs' ++ evs)%list. rewrite Hevs', Hevs, quiet_pbx_app, Hq, Hq'.
  by rewrite app_assoc.
Qed.

(** A computation that adds at most the one event [e]. *)
Lemma no_pbx_step {A} (m : M A) (e : event) :
  is_pbx_event e = false ->
  (forall w, trace (final (m w)) = trace w \/
             trace (final (m w)) = e :: trace w) ->
  no_pbx_events m.
Proof.
  intros He H w. destruct (H w) as [Hw|Hw].
  - by exists [].
  - exists [e]. split; [done|]. simpl. by rewrite He.
Qed.

Lemma no_pbx_silent {A} (m : M A) :
  (forall w, trace (final (m w)) = trace w) -> no_pbx_events m.
Proof. intros H w. by exists []. Qed.

Lemma no_pbx_load {A} p (f : TU -> A) : no_pbx_events (load p f).
Proof.
  apply no_pbx_silent. intros w. unfold load.
  destruct p; [destruct (heap w !! _)|]; done.
Qed.

Lemma no_pbx_store p g : no_pbx_events (store p g).
Proof.
  apply no_pbx_silent. intros w. unfold store.
  destruct p; [destruct (heap w !! _)|]; done.
Qed.

Lemma no_pbx_free p : no_pbx_events (free p).
Proof.
  apply no_pbx_silent. intros w. unfold free.
  destruct p; [destruct (heap w !! _)|]; done.
Qed.

Lemma no_pbx_malloc : no_pbx_events do_malloc.
Proof. by apply no_pbx_silent. Qed.

Lemma no_pbx_init_block l t : no_pbx_events (init_block l t).
Proof. by apply no_pbx_silent. Qed.

Lemma no_pbx_pbx_load {A} (f : PBX -> A) : no_pbx_events (pbx_load f).
Proof.
  apply no_pbx_silent. intros w. unfold pbx_load. by destruct (pbx w).
Qed.

Lemma no_pbx_pbx_store g : no_pbx_events (pbx_store g).
Proof.
  apply no_pbx_silent. intros w. unfold pbx_store. by destruct (pbx w).
Qed.

Lemma no_pbx_pbx_is_null : no_pbx_events pbx_is_null.
Proof. by apply no_pbx_silent. Qed.

Lemma no_pbx_mutex_lock p : no_pbx_events (mutex_lock p).
Proof.
  destruct p as [l|]; [|by apply no_pbx_silent].
  apply (no_pbx_step _ (EvLock (MTu l))); [done|].
  intros w. unfold mutex_lock.
  destruct (heap w !! l) as [t|]; [destruct (mutex t)|]; auto.
Qed.

Lemma no_pbx_mutex_unlock p : no_pbx_events (mutex_unlock p).
Proof.
  destruct p as [l|]; [|by apply no_pbx_silent].
  apply (no_pbx_step _ (EvUnlock (MTu l))); [done|].
  intros w. unfold mutex_unlock. destruct (heap w !! l) as [t|]; auto.
Qed.

Lemma no_pbx_emit e : is_pbx_event e = false -> no_pbx_events (emit e).
Proof. intros He. apply (no_pbx_step _ e); auto. Qed.

Lemma no_pbx_notify d msg : no_pbx_events (notify_client d msg).
Proof.
  intros w. rewrite notify_client_eq. exists (notify_events w d msg).
  split; [done|]. unfold notify_events.
  destruct (d <? 0); [done|]. by destruct (write_fails _ _ _).
Qed.

Create HintDb no_pbx discriminated.
#[local] Hint Resolve no_pbx_ret no_pbx_load no_pbx_store no_pbx_free
  no_pbx_malloc no_pbx_init_block no_pbx_pbx_load no_pbx_pbx_store
  no_pbx_pbx_is_null no_pbx_mutex_lock no_pbx_mutex_unlock no_pbx_notify
  : no_pbx.

Ltac no_pbx :=
  repeat first
    [ solve [ auto with no_pbx ]
    | apply no_pbx_bind; [|intros ?]
    | apply no_pbx_emit; reflexivity
    | lazymatch goal with
      | |- no_pbx_events (match ?x with _ => _ end) => destruct x
      | |- no_pbx_events (if ?c then _ else _) => destruct c
      end
    | progress cbv zeta ].

Lemma no_pbx_tu_ref tu : no_pbx_events (tu_ref tu).
Proof. unfold tu_ref. no_pbx. Qed.

Lemma no_pbx_notify_state tu : no_pbx_events (notify_client_of_tu_state tu).
Proof. unfold notify_client_of_tu_state. no_pbx. Qed.

Lemma no_pbx_safe_lock tu1 tu2 : no_pbx_events (safe_mutex_lock tu1 tu2).
Proof. unfold safe_mutex_lock. no_pbx. Qed.

Lemma no_pbx_safe_unlock tu1 tu2 : no_pbx_events (safe_mutex_unlock tu1 tu2).
Proof. unfold safe_mutex_unlock. no_pbx. Qed.

#[local] Hint Resolve no_pbx_tu_ref no_pbx_notify_state no_pbx_safe_lock
  no_pbx_safe_unlock : no_pbx.

Lemma no_pbx_tu_unref_body self tu :
  (forall p, no_pbx_events (self p)) -> no_pbx_events (tu_unref_body self tu).
Proof.
  intros Hself. unfold tu_unref_body, sys_close, mutex_destroy. no_pbx.
Qed.

Lemma no_pbx_tu_unref_fuel n tu : no_pbx_events (tu_unref_fuel n tu).
Proof.
  revert tu. induction n as [|n IH]; intros tu.
  - by apply no_pbx_silent.
  - cbn [tu_unref_fuel]. by apply no_pbx_tu_unref_body.
Qed.

Lemma no_pbx_tu_unref tu : no_pbx_events (tu_unref tu).
Proof. apply no_pbx_tu_unref_fuel. Qed.

#[local] Hint Resolve no_pbx_tu_unref : no_pbx.

Lemma no_pbx_tu_dial tu target : no_pbx_events (tu_dial tu target).
Proof. unfold tu_dial. no_pbx. Qed.

Lemma no_pbx_tu_hangup tu : no_pbx_events (tu_hangup tu).
Proof. unfold tu_hangup, tu_hangup_finish. no_pbx. Qed.

Lemma no_pbx_tu_extension tu : no_pbx_events (tu_extension tu).
Proof. unfold tu_extension. no_pbx. Qed.

#[local] Hint Resolve no_pbx_tu_dial no_pbx_tu_hangup no_pbx_tu_extension
  : no_pbx.

Lemma section_shape_quiet evs : quiet_pbx evs = true -> section_shape evs = true.
Proof.
  induction evs as [|e evs IH]; [done|]. simpl.
  intros [He Hq]%andb_true_iff. rewrite He, (IH Hq).
  destruct e as [| | |[]|[]|]; try done.
Qed.

Lemma section_shape_app evs1 evs2 :
  quiet_pbx evs1 = true -> section_shape evs2 = true ->
  section_shape (evs1 ++ evs2) = true.
Proof.
  intros Hq Hs. induction evs1 as [|e evs1 IH]; [done|].
  simpl in Hq. apply andb_true_iff in Hq as [He Hq].
  change ((e :: evs1) ++ evs2)%list with (e :: (evs1 ++ evs2))%list.
  cbn [section_shape]. rewrite He, (IH Hq).
  destruct e as [| | |[]|[]|]; try done; by destruct (evs1 ++ evs2)%list.
Qed.

Lemma quiet_pbx_rev evs : quiet_pbx (rev evs) = quiet_pbx evs.
Proof.
  unfold quiet_pbx. induction evs as [|e evs IH]; [done|].
  simpl. rewrite forallb_app, IH. simpl. rewrite andb_true_r. apply andb_comm.
Qed.

Lemma section_shape_inside evs :
  section_shape evs = true -> tu_locks_inside_pbx true evs = true.
Proof.
  induction evs as [|e evs IH]; [done|].
  destruct e as [| | |[]|[]|]; cbn [section_shape tu_locks_inside_pbx];
    try (destruct evs; [done|]; intros [_ H]%andb_true_iff; auto; fail);
    try (destruct evs; done).
Qed.

Lemma locked_section_quiet {A} (m : M A) : no_pbx_events m -> locked_section m.
Proof.
  intros H w. destruct (H w) as (evs & Hevs & Hq). exists evs.
  split; [done|]. apply section_shape_quiet. by rewrite quiet_pbx_rev.
Qed.

Lemma locked_section_bind {A B} (m : M A) (k : A -> M B) :
  no_pbx_events m -> (forall a, locked_section (k a)) ->
  locked_section (bind m k).
Proof.
  intros Hm Hk w. rewrite final_bind.
  destruct (Hm w) as (evs & Hevs & Hq).
  destruct (m w) as [a w'| | |]; cbn [final] in *;
    try (exists evs; split; [done|];
         apply section_shape_quiet; by rewrite quiet_pbx_rev).
  destruct (Hk a w') as (evs' & Hevs' & Hs').
  exists (evs' ++ evs)%list. rewrite Hevs', Hevs. split; [by rewrite app_assoc|].
  rewrite rev_app_distr. apply section_shape_app; [|done].
  by rewrite quiet_pbx_rev.
Qed.

Lemma locked_section_unlock {A} (r : A) :
  locked_section (pbx_unlock ;; ret r).
Proof.
  intros w. unfold bind, pbx_unlock, ret.
  destruct (pbx w); [by exists [EvUnlock MPbx] | by exists []].
Qed.

Ltac locked_section :=
  repeat first
    [ apply locked_section_unlock
    | apply locked_section_bind; [solve [no_pbx] | intros ?]
    | lazymatch goal with
      | |- locked_section (match ?x with _ => _ end) => destruct x
      | |- locked_section (if ?c then _ else _) => destruct c
      end ].

(** What [pbx_dial] does once it has the PBX lock. *)
Lemma pbx_dial_section tu ext0 :
  locked_section
    (target_tu <- pbx_load (fun p => extensions p !! ext0) ;;
     match target_tu with
     | None => pbx_unlock ;; ret (-1)
     | Some _ =>
         tu_ref tu ;;
         tu_ref target_tu ;;
         result <- tu_dial tu target_tu ;;
         tu_unref target_tu ;;
         tu_unref tu ;;
         pbx_unlock ;;
         ret result
     end).
Proof. locked_section. Qed.

(** A computation that starts by taking the PBX lock and then stays in
    the section takes every TU mutex with the PBX lock held. *)
Lemma lock_then_section {A} (k : M A) w :
  locked_section k ->
  exists evs,
    trace (final ((pbx_lock ;; k) w)) = (rev evs ++ trace w)%list /\
    tu_locks_inside_pbx false evs = true.
Proof.
  intros Hk. rewrite final_bind. unfold pbx_lock.
  destruct (pbx w) as [p|]; [destruct (lock p)|]; cbn [final];
    try (by exists []).
  destruct (Hk (log (EvLock MPbx) (with_pbx (Some (set_lock true p)) w)))
    as (evs & -> & Hs).
  exists (EvLock MPbx :: rev evs). cbn [rev]. rewrite rev_involutive.
  split; [by rewrite <- app_assoc|].
  cbn [tu_locks_inside_pbx]. by apply section_shape_inside.
Qed.

(** What [pbx_unregister] does once it has the PBX lock. *)
Lemma pbx_unregister_section tu :
  locked_section
    (null <- pbx_is_null ;;
     if (null : bool) || ptr_eqb tu NULL then
       pbx_unlock ;;
       ret (-1)
     else
       e <- tu_extension tu ;;
       unregistered <-
         (if (e <? 0) || (e >=? PBX_MAX_EXTENSIONS) then ret true
          else
            slot <- pbx_load (fun p => extensions p !! e) ;;
            ret (negb (ptr_eqb slot tu))) ;;
       if (unregistered : bool) then
         pbx_unlock ;;
         ret (-1)
       else
         tu_ref tu ;;
         m <- pbx_load extensions ;;
         pbx_store (set_extensions (slot_set e NULL m)) ;;
         n <- pbx_load active_tus ;;
         pbx_store (set_active_tus (int_wrap (n - 1))) ;;
         tu_hangup tu ;;
         tu_unref tu ;;
         n <- pbx_load active_tus ;;
         (if n =? 0 then emit EvSignal else ret tt) ;;
         tu_unref tu ;;
         pbx_unlock ;;
         ret 0).
Proof. locked_section. Qed.

(** C4, as the specification states it, does not hold: when client 4
    dials client 5, [pbx_dial] takes the mutexes of both TUs between taking
    and releasing the PBX lock. *)
Lemma dial_releases_pbx_lock_first_refuted :
  ~ (forall w tu e evs,
       trace (final (pbx_dial tu e w)) = (rev evs ++ trace w)%list ->
       tu_locks_outside_pbx false evs = true).
Proof.
  intros H.
  specialize (H two_clients (Some 1%positive) 5
                (rev (trace (final (pbx_dial (Some 1%positive) 5 two_clients))))).
  vm_compute in H. specialize (H eq_refl). discriminate H.
Qed.

(** C4 (as amended): [pbx_dial] and [pbx_unregister] keep the PBX lock
    while they call into the TU layer.  In every run, whatever the world
    and however the call ends, each TU mutex that one of them takes is taken
    with the PBX lock held, the lock being released in the last step
    only; and a dial of a registered extension by a TU whose mutex is free
    takes that mutex directly after the PBX lock. *)
Theorem pbx_lock_held_over_tu_layer (w : World) (tu : ptr) (e : Z) :
  (exists evs,
     trace (final (pbx_dial tu e w)) = (rev evs ++ trace w)%list /\
     tu_locks_inside_pbx false evs = true) /\
  (exists evs,
     trace (final (pbx_unregister tu w)) = (rev evs ++ trace w)%list /\
     tu_locks_inside_pbx false evs = true) /\
  (forall p a ta t tt,
     pbx w = Some p -> lock p = false ->
     0 <= e < PBX_MAX_EXTENSIONS -> extensions p !! e = Some t ->
     tu = Some a -> heap w !! a = Some ta -> mutex ta = false ->
     heap w !! t = Some tt ->
     exists rest,
       trace (final (pbx_dial tu e w))
       = (rev rest ++ EvLock (MTu a) :: EvLock MPbx :: trace w)%list /\
       section_shape rest = true).
Proof.
  split; [|split].
  - unfold pbx_dial. rewrite final_bind. unfold pbx_is_null.
    destruct (_ || _); [by exists []|].
    apply lock_then_section, pbx_dial_section.
  - unfold pbx_unregister. apply lock_then_section, pbx_unregister_section.
  - intros p a [fa ea ra sa pa ma] t [ft et rt st pt mt]
      Hp Hl He Ht -> Ha Hma Htt.
    cbn [mutex] in Hma. subst ma.
    unfold pbx_dial. run.
    destruct (Z.ltb_spec e 0); [lia|].
    rewrite Z.geb_leb. destruct (Z.leb_spec PBX_MAX_EXTENSIONS e); [lia|].
    run. rewrite Ht. run.
    destruct (decide (a = t)) as [->|Hat].
    + rewrite Ha in Htt. injection Htt as <- <- <- <- <- <-.
      unfold tu_dial at 1. run.
      match goal with
      | |- context [final (?m ?W)] =>
          assert (Hs : locked_section m) by locked_section;
          destruct (Hs W) as (evs & Hevs & Hshape)
      end.
      rewrite Hevs. world_cbn. exists (rev evs).
      by rewrite rev_involutive.
    + unfold tu_dial at 1. run.
      match goal with
      | |- context [final (?m ?W)] =>
          assert (Hs : locked_section m) by locked_section;
          destruct (Hs W) as (evs & Hevs & Hshape)
      end.
      rewrite Hevs. world_cbn. exists (rev evs).
      by rewrite rev_involutive.
Qed.

(** ** The peer invariant *)


Ltac simpl_lookup :=
  repeat first
    [ rewrite lookup_insert_eq
    | rewrite lookup_insert_ne by congruence
    | rewrite lookup_delete_ne by congruence ].



















(** * Further properties of the code *)

(** ** Picking up *)

(** X1: a pickup on a TU that is on hook gives it the dial tone, sends the
    line "DIAL TONE" to its client and returns 0; no other TU and no other
    field changes. *)
Theorem pickup_on_hook_dial_tone
    (w : World) (a : loc) (fa ea ra : Z) (pa : ptr) :
  heap w !! a = Some (mkTU fa ea ra TU_ON_HOOK pa false) ->
  0 <= fa -> writes_succeed w ->
  tu_pickup (Some a) w
  = Ret 0
      {| heap := <[a := mkTU fa ea ra TU_DIAL_TONE pa false]> (heap w);
         pbx := pbx w;
         trace := EvUnlock (MTu a) :: EvWrite fa ("DIAL TONE" +:+ EOL)
                  :: EvLock (MTu a) :: trace w;
         write_fails := write_fails w;
         malloc := malloc w |}.
Proof.
  intros Ha Hfa Hw. unfold tu_pickup. run.
  by rewrite !insert_insert_eq.
Qed.

Lemma pickup_on_hook_dial_tone_witness :
  tu_pickup (Some 2%positive) two_clients
  = Ret 0
      {| heap := <[2%positive := mkTU 5 5 2 TU_DIAL_TONE NULL false]>
                   (heap two_clients);
         pbx := pbx two_clients;
         trace := EvUnlock (MTu 2%positive) :: EvWrite 5 ("DIAL TONE" +:+ EOL)
                  :: EvLock (MTu 2%positive) :: trace two_clients;
         write_fails := write_fails two_clients;
         malloc := malloc two_clients |}.
Proof.
  apply (pickup_on_hook_dial_tone two_clients 2%positive 5 5 2 NULL).
  - reflexivity.
  - lia.
  - intros tr d. reflexivity.
Defined.

(** X2: a pickup on a ringing TU [a] connects it with its peer [b]: both
    are CONNECTED and still each other's peer, the counts are untouched,
    [a]'s client is sent CONNECTED with the extension of [b] and [b]'s
    client CONNECTED with the extension of [a], each line cut to the 14
    characters that fit the buffer; [a]'s mutex is taken first. *)
Theorem pickup_ringing_connects
    (w : World) (a b : loc) (fa ea ra fb eb rb : Z) (sb : TU_STATE) (pb : ptr) :
  a <> b ->
  heap w !! a = Some (mkTU fa ea ra TU_RINGING (Some b) false) ->
  heap w !! b = Some (mkTU fb eb rb sb pb false) ->
  0 <= fa -> 0 <= fb -> writes_succeed w ->
  exists w',
    tu_pickup (Some a) w = Ret 0 w' /\
    heap w' !! a = Some (mkTU fa ea ra TU_CONNECTED (Some b) false) /\
    heap w' !! b = Some (mkTU fb eb rb TU_CONNECTED pb false) /\
    (forall c, c <> a -> c <> b -> heap w' !! c = heap w !! c) /\
    trace w'
    = EvUnlock (MTu a) :: EvUnlock (MTu b)
      :: EvWrite fb (snprintf 15 (connected_line ea))
      :: EvWrite fa (snprintf 15 (connected_line eb))
      :: EvLock (MTu b) :: EvLock (MTu a) :: trace w.
Proof.
  intros Hab Ha Hb Hfa Hfb Hw. unfold tu_pickup. run.
  eexists. split; [reflexivity|]. world_cbn.
  split; [solve_lookup|]. split; [solve_lookup|]. split; [|reflexivity].
  intros c Hca Hcb. by rewrite !lookup_insert_ne by congruence.
Qed.

Lemma pickup_ringing_connects_witness :
  exists w',
    tu_pickup (Some 2%positive) ringing_clients = Ret 0 w' /\
    heap w' !! 2%positive
    = Some (mkTU 5 5 3 TU_CONNECTED (Some 1%positive) false) /\
    heap w' !! 1%positive
    = Some (mkTU 4 4 3 TU_CONNECTED (Some 2%positive) false) /\
    (forall c, c <> 2%positive -> c <> 1%positive ->
       heap w' !! c = heap ringing_clients !! c) /\
    trace w'
    = EvUnlock (MTu 2%positive) :: EvUnlock (MTu 1%positive)
      :: EvWrite 4 (snprintf 15 (connected_line 5))
      :: EvWrite 5 (snprintf 15 (connected_line 4))
      :: EvLock (MTu 1%positive) :: EvLock (MTu 2%positive)
      :: trace ringing_clients.
Proof.
  apply (pickup_ringing_connects ringing_clients 2%positive 1%positive
           5 5 3 4 4 3 TU_RING_BACK (Some 2%positive)).
  - discriminate.
  - reflexivity.
  - reflexivity.
  - lia.
  - lia.
  - intros tr d. reflexivity.
Defined.

(** ** Hanging up *)

(** X3: a hangup on a connected TU [a] puts [a] on hook and gives its peer
    [b] the dial tone; both links are cleared, [b] loses one reference and
    [a] none; [a]'s client is sent ON HOOK with [a]'s descriptor, [b]'s
    client DIAL TONE.  [a]'s mutex is taken before [b]'s, whatever their
    addresses. *)
Theorem hangup_connected_peer_dial_tone
    (w : World) (a b : loc) (fa ea ra fb eb rb : Z) (sb : TU_STATE) (pb : ptr) :
  a <> b ->
  heap w !! a = Some (mkTU fa ea ra TU_CONNECTED (Some b) false) ->
  heap w !! b = Some (mkTU fb eb rb sb pb false) ->
  0 <= fa -> 0 <= fb -> 1 < rb <= INT_MAX ->
  writes_succeed w ->
  exists w',
    tu_hangup (Some a) w = Ret 0 w' /\
    heap w' !! a = Some (mkTU fa ea ra TU_ON_HOOK NULL false) /\
    heap w' !! b = Some (mkTU fb eb (rb - 1) TU_DIAL_TONE NULL false) /\
    (forall c, c <> a -> c <> b -> heap w' !! c = heap w !! c) /\
    trace w'
    = EvUnlock (MTu a) :: EvUnlock (MTu b) :: EvLock (MTu b)
      :: EvUnlock (MTu b)
      :: EvWrite fb ("DIAL TONE" +:+ EOL)
      :: EvWrite fa (snprintf 15 (on_hook_line fa))
      :: EvLock (MTu b) :: EvLock (MTu a) :: trace w.
Proof.
  intros Hab Ha Hb Hfa Hfb Hrb Hw.
  assert (Hk : int_wrap (rb - 1) <> 0) by (rewrite int_wrap_pred; lia).
  unfold tu_hangup. run.
  eexists. split; [reflexivity|]. world_cbn.
  rewrite int_wrap_pred by done.
  split; [solve_lookup|]. split; [solve_lookup|]. split; [|reflexivity].
  intros c Hca Hcb. by rewrite !lookup_insert_ne by congruence.
Qed.

Lemma hangup_connected_peer_dial_tone_witness :
  exists w',
    tu_hangup (Some 1%positive) connected_clients = Ret 0 w' /\
    heap w' !! 1%positive = Some (mkTU 4 4 3 TU_ON_HOOK NULL false) /\
    heap w' !! 2%positive = Some (mkTU 5 5 (3 - 1) TU_DIAL_TONE NULL false) /\
    (forall c, c <> 1%positive -> c <> 2%positive ->
       heap w' !! c = heap connected_clients !! c) /\
    trace w'
    = EvUnlock (MTu 1%positive) :: EvUnlock (MTu 2%positive)
      :: EvLock (MTu 2%positive) :: EvUnlock (MTu 2%positive)
      :: EvWrite 5 ("DIAL TONE" +:+ EOL)
      :: EvWrite 4 (snprintf 15 (on_hook_line 4))
      :: EvLock (MTu 2%positive) :: EvLock (MTu 1%positive)
      :: trace connected_clients.
Proof.
  apply (hangup_connected_peer_dial_tone connected_clients
           1%positive 2%positive 4 4 3 5 5 3 TU_CONNECTED (Some 1%positive)).
  - discriminate.
  - reflexivity.
  - reflexivity.
  - lia.
  - lia.
  - unfold INT_MAX. lia.
  - intros tr d. reflexivity.
Defined.

(** X4: a hangup on a TU [a] that hears the ring back puts both [a] and
    the TU [b] it called on hook; both links are cleared, [b] loses one
    reference, and each client is sent ON HOOK with its own descriptor. *)
Theorem hangup_ring_back_both_on_hook
    (w : World) (a b : loc) (fa ea ra fb eb rb : Z) (sb : TU_STATE) (pb : ptr) :
  a <> b ->
  heap w !! a = Some (mkTU fa ea ra TU_RING_BACK (Some b) false) ->
  heap w !! b = Some (mkTU fb eb rb sb pb false) ->
  0 <= fa -> 0 <= fb -> 1 < rb <= INT_MAX ->
  writes_succeed w ->
  exists w',
    tu_hangup (Some a) w = Ret 0 w' /\
    heap w' !! a = Some (mkTU fa ea ra TU_ON_HOOK NULL false) /\
    heap w' !! b = Some (mkTU fb eb (rb - 1) TU_ON_HOOK NULL false) /\
    (forall c, c <> a -> c <> b -> heap w' !! c = heap w !! c) /\
    io_events (trace w')
    = EvWrite fb (snprintf 15 (on_hook_line fb))
      :: EvWrite fa (snprintf 15 (on_hook_line fa))
      :: io_events (trace w).
Proof.
  intros Hab Ha Hb Hfa Hfb Hrb Hw.
  assert (Hk : int_wrap (rb - 1) <> 0) by (rewrite int_wrap_pred; lia).
  unfold tu_hangup. run.
  eexists. split; [reflexivity|]. world_cbn.
  rewrite int_wrap_pred by done.
  split; [solve_lookup|]. split; [solve_lookup|]. split; [|reflexivity].
  intros c Hca Hcb. by rewrite !lookup_insert_ne by congruence.
Qed.

Lemma hangup_ring_back_both_on_hook_witness :
  exists w',
    tu_hangup (Some 1%positive) ringing_clients = Ret 0 w' /\
    heap w' !! 1%positive = Some (mkTU 4 4 3 TU_ON_HOOK NULL false) /\
    heap w' !! 2%positive = Some (mkTU 5 5 (3 - 1) TU_ON_HOOK NULL false) /\
    (forall c, c <> 1%positive -> c <> 2%positive ->
       heap w' !! c = heap ringing_clients !! c) /\
    io_events (trace w')
    = EvWrite 5 (snprintf 15 (on_hook_line 5))
      :: EvWrite 4 (snprintf 15 (on_hook_line 4))
      :: io_events (trace ringing_clients).
Proof.
  apply (hangup_ring_back_both_on_hook ringing_clients
           1%positive 2%positive 4 4 3 5 5 3 TU_RINGING (Some 1%positive)).
  - discriminate.
  - reflexivity.
  - reflexivity.
  - lia.
  - lia.
  - unfold INT_MAX. lia.
  - intros tr d. reflexivity.
Defined.

(** X5: a hangup on a TU without a peer that is off the hook (dial tone,
    busy signal or error) puts it on hook, sends ON HOOK with its
    descriptor through the 15-byte buffer and returns 0; on a TU that is
    already on hook it changes nothing, sends the line through the 64-byte
    buffer of [notify_client_of_tu_state] and returns -1. *)
Theorem hangup_alone
    (w : World) (a : loc) (fa ea ra : Z) (s : TU_STATE) :
  heap w !! a = Some (mkTU fa ea ra s NULL false) ->
  in_call s = false ->
  0 <= fa -> writes_succeed w ->
  tu_hangup (Some a) w
  = Ret (if state_eqb s TU_ON_HOOK then -1 else 0)
      {| heap := <[a := mkTU fa ea ra TU_ON_HOOK NULL false]> (heap w);
         pbx := pbx w;
         trace := EvUnlock (MTu a)
                  :: EvWrite fa
                       (snprintf (if state_eqb s TU_ON_HOOK then 64 else 15)
                          (on_hook_line fa))
                  :: EvLock (MTu a) :: trace w;
         write_fails := write_fails w;
         malloc := malloc w |}.
Proof.
  intros Ha Hs Hfa Hw. unfold tu_hangup.
  destruct s; try discriminate Hs; run; by rewrite !insert_insert_eq.
Qed.

Lemma hangup_alone_witness :
  tu_hangup (Some 1%positive) two_clients
  = Ret (if state_eqb TU_DIAL_TONE TU_ON_HOOK then -1 else 0)
      {| heap := <[1%positive := mkTU 4 4 2 TU_ON_HOOK NULL false]>
                   (heap two_clients);
         pbx := pbx two_clients;
         trace := EvUnlock (MTu 1%positive)
                  :: EvWrite 4
                       (snprintf
                          (if state_eqb TU_DIAL_TONE TU_ON_HOOK then 64 else 15)
                          (on_hook_line 4))
                  :: EvLock (MTu 1%positive) :: trace two_clients;
         write_fails := write_fails two_clients;
         malloc := malloc two_clients |}.
Proof.
  apply (hangup_alone two_clients 1%positive 4 4 2 TU_DIAL_TONE).
  - reflexivity.
  - reflexivity.
  - lia.
  - intros tr d. reflexivity.
Defined.

(** ** Dialling *)

(** X6: a dial from [a], which has the dial tone, to a distinct TU [x] that
    is on hook without a peer links the two: [a] hears the ring back, [x]
    rings, each is the other's peer and each count is one higher; [a]'s
    client is sent RING BACK and [x]'s client RINGING, and 0 is returned. *)
Theorem dial_on_hook_target_rings
    (w : World) (a x : loc) (fa ea ra fx ex rx : Z) (pa : ptr) :
  a <> x ->
  heap w !! a = Some (mkTU fa ea ra TU_DIAL_TONE pa false) ->
  heap w !! x = Some (mkTU fx ex rx TU_ON_HOOK NULL false) ->
  0 <= ra < INT_MAX -> 0 <= rx < INT_MAX ->
  0 <= fa -> 0 <= fx -> writes_succeed w ->
  exists w',
    tu_dial (Some a) (Some x) w = Ret 0 w' /\
    heap w' !! a = Some (mkTU fa ea (ra + 1) TU_RING_BACK (Some x) false) /\
    heap w' !! x = Some (mkTU fx ex (rx + 1) TU_RINGING (Some a) false) /\
    (forall c, c <> a -> c <> x -> heap w' !! c = heap w !! c) /\
    io_events (trace w')
    = EvWrite fx ("RINGING" +:+ EOL) :: EvWrite fa ("RING BACK" +:+ EOL)
      :: io_events (trace w).
Proof.
  intros Hax Ha Hx Hra Hrx Hfa Hfx Hw.
  unfold tu_dial. run.
  rewrite (proj2 (Pos.eqb_neq a x)) by done.
  destruct (a <? x)%positive; run;
    (eexists; split; [reflexivity|]; world_cbn;
     rewrite !int_wrap_succ by lia;
     split; [solve_lookup|]; split; [solve_lookup|]; split; [|reflexivity];
     intros c Hca Hcx; by rewrite !lookup_insert_ne by congruence).
Qed.

Lemma dial_on_hook_target_rings_witness :
  exists w',
    tu_dial (Some 1%positive) (Some 2%positive) two_clients = Ret 0 w' /\
    heap w' !! 1%positive
    = Some (mkTU 4 4 (2 + 1) TU_RING_BACK (Some 2%positive) false) /\
    heap w' !! 2%positive
    = Some (mkTU 5 5 (2 + 1) TU_RINGING (Some 1%positive) false) /\
    (forall c, c <> 1%positive -> c <> 2%positive ->
       heap w' !! c = heap two_clients !! c) /\
    io_events (trace w')
    = EvWrite 5 ("RINGING" +:+ EOL) :: EvWrite 4 ("RING BACK" +:+ EOL)
      :: io_events (trace two_clients).
Proof.
  apply (dial_on_hook_target_rings two_clients 1%positive 2%positive
           4 4 2 5 5 2 NULL).
  - discriminate.
  - reflexivity.
  - reflexivity.
  - unfold INT_MAX. lia.
  - unfold INT_MAX. lia.
  - lia.
  - lia.
  - intros tr d. reflexivity.
Defined.

(** X7: a dial from [a], which has the dial tone, to a distinct TU [x] that
    is not on hook, or that has a peer, gives [a] the busy signal and
    returns -1: [a]'s client is sent BUSY SIGNAL, and [x], its client and
    all counts are left alone. *)
Theorem dial_engaged_target_busy
    (w : World) (a x : loc) (fa ea ra fx ex rx : Z) (pa px : ptr)
    (sx : TU_STATE) :
  a <> x ->
  heap w !! a = Some (mkTU fa ea ra TU_DIAL_TONE pa false) ->
  heap w !! x = Some (mkTU fx ex rx sx px false) ->
  sx <> TU_ON_HOOK \/ px <> NULL ->
  0 <= fa -> writes_succeed w ->
  exists w',
    tu_dial (Some a) (Some x) w = Ret (-1) w' /\
    heap w' = <[a := mkTU fa ea ra TU_BUSY_SIGNAL pa false]> (heap w) /\
    io_events (trace w')
    = EvWrite fa ("BUSY SIGNAL" +:+ EOL) :: io_events (trace w).
Proof.
  intros Hax Ha Hx Hbusy Hfa Hw.
  unfold tu_dial. run.
  rewrite (proj2 (Pos.eqb_neq a x)) by done.
  destruct (a <? x)%positive; destruct sx, px as [q|];
    try (exfalso; by destruct Hbusy); run;
    (eexists; split; [reflexivity|]; world_cbn; split; [|reflexivity];
     apply map_eq; intros c;
     destruct (decide (c = a)) as [->|];
       [|destruct (decide (c = x)) as [->|]];
     simpl_lookup; try reflexivity; by symmetry).
Qed.

Lemma dial_engaged_target_busy_witness :
  exists w',
    tu_dial (Some 1%positive) (Some 2%positive)
      (with_heap (<[1%positive := mkTU 4 4 2 TU_DIAL_TONE NULL false]>
                    (heap connected_clients)) connected_clients)
    = Ret (-1) w' /\
    heap w'
    = <[1%positive := mkTU 4 4 2 TU_BUSY_SIGNAL NULL false]>
        (heap (with_heap (<[1%positive := mkTU 4 4 2 TU_DIAL_TONE NULL false]>
                            (heap connected_clients)) connected_clients)) /\
    io_events (trace w')
    = EvWrite 4 ("BUSY SIGNAL" +:+ EOL)
      :: io_events
           (trace (with_heap
                     (<[1%positive := mkTU 4 4 2 TU_DIAL_TONE NULL false]>
                        (heap connected_clients)) connected_clients)).
Proof.
  apply (dial_engaged_target_busy _ 1%positive 2%positive
           4 4 2 5 5 3 NULL (Some 1%positive) TU_CONNECTED).
  - discriminate.
  - reflexivity.
  - reflexivity.
  - left. discriminate.
  - lia.
  - intros tr d. reflexivity.
Defined.

(** X8: a TU that dials itself never gets an answer: [tu_dial] takes the
    TU's mutex through [safe_mutex_lock] and then asks for the same mutex
    again, so the call does not return, no busy signal is sent and the TU
    still has its dial tone. *)
Theorem dial_self_blocks
    (w : World) (a : loc) (fa ea ra : Z) (pa : ptr) :
  heap w !! a = Some (mkTU fa ea ra TU_DIAL_TONE pa false) ->
  tu_dial (Some a) (Some a) w
  = Blocked (MTu a)
      {| heap := <[a := mkTU fa ea ra TU_DIAL_TONE pa true]> (heap w);
         pbx := pbx w;
         trace := EvLock (MTu a) :: EvUnlock (MTu a) :: EvLock (MTu a)
                  :: trace w;
         write_fails := write_fails w;
         malloc := malloc w |}.
Proof.
  intros Ha. unfold tu_dial. run. rewrite Pos.ltb_irrefl. run.
  erewrite run_lock_held by side. by rewrite !insert_insert_eq.
Qed.

Lemma dial_self_blocks_witness :
  tu_dial (Some 1%positive) (Some 1%positive) two_clients
  = Blocked (MTu 1%positive)
      {| heap := <[1%positive := mkTU 4 4 2 TU_DIAL_TONE NULL true]>
                   (heap two_clients);
         pbx := pbx two_clients;
         trace := EvLock (MTu 1%positive) :: EvUnlock (MTu 1%positive)
                  :: EvLock (MTu 1%positive) :: trace two_clients;
         write_fails := write_fails two_clients;
         malloc := malloc two_clients |}.
Proof.
  apply (dial_self_blocks two_clients 1%positive 4 4 2 NULL). reflexivity.
Defined.

(** ** Commands in the wrong state *)

Lemma heap_unlocked_again (h : gmap loc TU) (a : loc) (t : TU) :
  h !! a = Some t -> mutex t = false ->
  <[a := set_mutex false (set_mutex true t)]> (<[a := set_mutex true t]> h) = h.
Proof.
  intros Ha Hm. rewrite insert_insert_eq. apply insert_id.
  rewrite Ha. f_equal. destruct t; simpl in *; by subst.
Qed.

(** X9: a dial from a TU that has no dial tone (and is not connected)
    changes no TU and returns -1, whatever the target is, even a pointer to
    freed memory; the client is sent the line of the unchanged state. *)
Theorem dial_without_dial_tone
    (w : World) (a : loc) (target : ptr) (fa ea ra : Z) (s : TU_STATE)
    (pa : ptr) :
  heap w !! a = Some (mkTU fa ea ra s pa false) ->
  s <> TU_DIAL_TONE -> s <> TU_CONNECTED ->
  0 <= fa -> writes_succeed w ->
  tu_dial (Some a) target w
  = Ret (-1)
      {| heap := heap w;
         pbx := pbx w;
         trace := EvUnlock (MTu a) :: EvWrite fa (state_line s fa)
                  :: EvLock (MTu a) :: trace w;
         write_fails := write_fails w;
         malloc := malloc w |}.
Proof.
  intros Ha Hs Hs' Hfa Hw. unfold tu_dial.
  destruct s; try done; run;
    by rewrite (heap_unlocked_again _ _ _ Ha eq_refl).
Qed.

Lemma dial_without_dial_tone_witness :
  tu_dial (Some 2%positive) (Some 77%positive) two_clients
  = Ret (-1)
      {| heap := heap two_clients;
         pbx := pbx two_clients;
         trace := EvUnlock (MTu 2%positive)
                  :: EvWrite 5 (state_line TU_ON_HOOK 5)
                  :: EvLock (MTu 2%positive) :: trace two_clients;
         write_fails := write_fails two_clients;
         malloc := malloc two_clients |}.
Proof.
  apply (dial_without_dial_tone two_clients 2%positive (Some 77%positive)
           5 5 2 TU_ON_HOOK NULL).
  - reflexivity.
  - discriminate.
  - discriminate.
  - lia.
  - intros tr d. reflexivity.
Defined.

(** X10: a chat from a TU that is not connected sends nothing to any other
    client: it changes no TU, sends the sender the line of its state and
    returns -1. *)
Theorem chat_not_connected
    (w : World) (a : loc) (text : string) (fa ea ra : Z) (s : TU_STATE)
    (pa : ptr) :
  heap w !! a = Some (mkTU fa ea ra s pa false) ->
  s <> TU_CONNECTED ->
  0 <= fa -> writes_succeed w ->
  tu_chat (Some a) (Some text) w
  = Ret (-1)
      {| heap := heap w;
         pbx := pbx w;
         trace := EvUnlock (MTu a) :: EvWrite fa (state_line s fa)
                  :: EvLock (MTu a) :: trace w;
         write_fails := write_fails w;
         malloc := malloc w |}.
Proof.
  intros Ha Hs Hfa Hw. unfold tu_chat.
  destruct s; try done; run;
    by rewrite (heap_unlocked_again _ _ _ Ha eq_refl).
Qed.

Lemma chat_not_connected_witness :
  tu_chat (Some 1%positive) (Some "hello") two_clients
  = Ret (-1)
      {| heap := heap two_clients;
         pbx := pbx two_clients;
         trace := EvUnlock (MTu 1%positive)
                  :: EvWrite 4 (state_line TU_DIAL_TONE 4)
                  :: EvLock (MTu 1%positive) :: trace two_clients;
         write_fails := write_fails two_clients;
         malloc := malloc two_clients |}.
Proof.
  apply (chat_not_connected two_clients 1%positive "hello" 4 4 2
           TU_DIAL_TONE NULL).
  - reflexivity.
  - discriminate.
  - lia.
  - intros tr d. reflexivity.
Defined.

(** X11: a pickup on a TU that is off the hook and in no call (dial tone,
    busy signal, error) changes no TU and returns 0, sending the line of
    the unchanged state. *)
Theorem pickup_off_hook_no_effect
    (w : World) (a : loc) (fa ea ra : Z) (s : TU_STATE) (pa : ptr) :
  heap w !! a = Some (mkTU fa ea ra s pa false) ->
  s = TU_DIAL_TONE \/ s = TU_BUSY_SIGNAL \/ s = TU_ERROR ->
  0 <= fa -> writes_succeed w ->
  tu_pickup (Some a) w
  = Ret 0
      {| heap := heap w;
         pbx := pbx w;
         trace := EvUnlock (MTu a) :: EvWrite fa (state_line s fa)
                  :: EvLock (MTu a) :: trace w;
         write_fails := write_fails w;
         malloc := malloc w |}.
Proof.
  intros Ha [->|[->| ->]] Hfa Hw; unfold tu_pickup; run;
    by rewrite (heap_unlocked_again _ _ _ Ha eq_refl).
Qed.

Lemma pickup_off_hook_no_effect_witness :
  tu_pickup (Some 1%positive) two_clients
  = Ret 0
      {| heap := heap two_clients;
         pbx := pbx two_clients;
         trace := EvUnlock (MTu 1%positive)
                  :: EvWrite 4 (state_line TU_DIAL_TONE 4)
                  :: EvLock (MTu 1%positive) :: trace two_clients;
         write_fails := write_fails two_clients;
         malloc := malloc two_clients |}.
Proof.
  apply (pickup_off_hook_no_effect two_clients 1%positive 4 4 2
           TU_DIAL_TONE NULL).
  - reflexivity.
  - by left.
  - lia.
  - intros tr d. reflexivity.
Defined.

(** ** Reference counts *)

(** X12: [tu_ref] followed by [tu_unref] leaves every TU as it was and
    returns, as long as the count is a positive [int] below INT_MAX: the
    count is raised without the TU's mutex and lowered under it. *)
Theorem ref_then_unref_restores
    (w : World) (a : loc) (t : TU) :
  heap w !! a = Some t -> mutex t = false ->
  0 < ref_count t < INT_MAX ->
  (tu_ref (Some a) ;; tu_unref (Some a)) w
  = Ret tt
      {| heap := heap w;
         pbx := pbx w;
         trace := EvUnlock (MTu a) :: EvLock (MTu a) :: trace w;
         write_fails := write_fails w;
         malloc := malloc w |}.
Proof.
  destruct t as [f e r s p m]. cbn [mutex ref_count].
  intros Ha -> Hr.
  assert (Hk : int_wrap (int_wrap (r + 1) - 1) = r).
  { rewrite int_wrap_succ by lia. rewrite int_wrap_id; [lia|].
    unfold in_int, INT_MIN, INT_MAX in *. lia. }
  run.
  erewrite tu_unref_keep;
    [| world_cbn; apply lookup_insert_eq | reflexivity
     | world_cbn; rewrite Hk; lia ].
  world_cbn. rewrite Hk, insert_insert_eq.
  by rewrite (insert_id _ _ _ Ha).
Qed.

Lemma ref_then_unref_restores_witness :
  (tu_ref (Some 1%positive) ;; tu_unref (Some 1%positive)) two_clients
  = Ret tt
      {| heap := heap two_clients;
         pbx := pbx two_clients;
         trace := EvUnlock (MTu 1%positive) :: EvLock (MTu 1%positive)
                  :: trace two_clients;
         write_fails := write_fails two_clients;
         malloc := malloc two_clients |}.
Proof.
  apply (ref_then_unref_restores two_clients 1%positive
           (mkTU 4 4 2 TU_DIAL_TONE NULL false)).
  - reflexivity.
  - reflexivity.
  - unfold INT_MAX. simpl. lia.
Defined.

(** X13: [tu_unref] on the last reference of a TU without a peer closes
    its descriptor once and frees it; on any other positive count it only
    lowers the count.  In both cases it returns. *)
Theorem unref_frees_at_zero_only
    (w : World) (a : loc) (fa ea ra : Z) (s : TU_STATE) :
  heap w !! a = Some (mkTU fa ea ra s NULL false) ->
  0 < ra <= INT_MAX -> 0 <= fa ->
  tu_unref (Some a) w
  = Ret tt
      {| heap := if ra =? 1 then delete a (heap w)
                 else <[a := mkTU fa ea (ra - 1) s NULL false]> (heap w);
         pbx := pbx w;
         trace := (if ra =? 1 then [EvClose fa] else [])
                  ++ EvUnlock (MTu a) :: EvLock (MTu a) :: trace w;
         write_fails := write_fails w;
         malloc := malloc w |}.
Proof.
  intros Ha Hr Hfa. destruct (Z.eqb_spec ra 1) as [->|Hne].
  - erewrite tu_unref_free by side. world_cbn. unfold close_events.
    by destruct (Z.leb_spec 0 fa); [|lia].
  - assert (Hk : int_wrap (ra - 1) = ra - 1) by (apply int_wrap_pred; lia).
    erewrite tu_unref_keep by (first [side | world_cbn; lia]).
    world_cbn. by rewrite Hk.
Qed.

Lemma unref_frees_at_zero_only_witness :
  tu_unref (Some 1%positive) two_clients
  = Ret tt
      {| heap := if 2 =? 1 then delete 1%positive (heap two_clients)
                 else <[1%positive := mkTU 4 4 (2 - 1) TU_DIAL_TONE NULL false]>
                        (heap two_clients);
         pbx := pbx two_clients;
         trace := (if 2 =? 1 then [EvClose 4] else [])
                  ++ EvUnlock (MTu 1%positive) :: EvLock (MTu 1%positive)
                  :: trace two_clients;
         write_fails := write_fails two_clients;
         malloc := malloc two_clients |}.
Proof.
  apply (unref_frees_at_zero_only two_clients 1%positive 4 4 2 TU_DIAL_TONE).
  - reflexivity.
  - unfold INT_MAX. lia.
  - lia.
Defined.

(** X14: [tu_unref] on the last reference of a TU that still has a peer
    does not return: after locking the peer's mutex it calls itself on the
    peer, which asks for that mutex again (or the peer is gone and the
    access is invalid).  The TU is not freed. *)
Theorem unref_with_peer_at_zero_stuck
    (w : World) (a q : loc) (fa ea : Z) (s : TU_STATE) :
  heap w !! a = Some (mkTU fa ea 1 s (Some q) false) ->
  returned (tu_unref (Some a) w) = None /\
  is_Some (heap (final (tu_unref (Some a) w)) !! a).
Proof.
  intros Ha. split.
  - eapply tu_unref_peer_stuck; [exact Ha|reflexivity|reflexivity|reflexivity].
  - rewrite tu_unref_unfold. cbn [tu_unref_body]. run.
    change (int_wrap (1 - 1) =? 0) with true. run.
    destruct (decide (q = a)) as [->|Hne].
    + run. erewrite run_blocked; [| eapply tu_unref_fuel_waits; side].
      cbn [final]. world_cbn. rewrite lookup_insert_eq. by eexists.
    + destruct (heap w !! q) as [[f' e' r' s' p' m']|] eqn:Hq.
      * destruct m'.
        -- erewrite run_lock_held by side. cbn [final]. world_cbn.
           rewrite lookup_insert_eq. by eexists.
        -- run. erewrite run_blocked; [| eapply tu_unref_fuel_waits; side].
           cbn [final]. world_cbn. simpl_lookup. by eexists.
      * rewrite run_lock_dangling by side. cbn [final]. world_cbn.
        rewrite lookup_insert_eq. by eexists.
Qed.

Lemma unref_with_peer_at_zero_stuck_witness :
  returned (tu_unref (Some 1%positive)
              (with_heap (<[1%positive :=
                              mkTU 4 4 1 TU_CONNECTED (Some 2%positive) false]>
                            (heap connected_clients)) connected_clients))
  = None /\
  is_Some
    (heap (final (tu_unref (Some 1%positive)
                    (with_heap
                       (<[1%positive :=
                            mkTU 4 4 1 TU_CONNECTED (Some 2%positive) false]>
                          (heap connected_clients)) connected_clients)))
       !! 1%positive).
Proof.
  apply (unref_with_peer_at_zero_stuck _ 1%positive 2%positive 4 4
           TU_CONNECTED).
  reflexivity.
Defined.

(** ** The registry *)

(** X15: registering a TU at a free extension in range stores it in that
    slot, raises the number of active TUs and the TU's count by one,
    releases the PBX lock and returns 0.  The TU's mutex is not taken, and
    a TU whose extension is already set (every TU made by [tu_init]) keeps
    that extension, whichever slot it is stored in, and is sent nothing. *)
Theorem register_free_slot
    (w : World) (p : PBX) (l : loc) (e f x r : Z) (s : TU_STATE) (q : ptr)
    (m : bool) :
  pbx w = Some p -> lock p = false ->
  0 <= e < PBX_MAX_EXTENSIONS -> extensions p !! e = None ->
  heap w !! l = Some (mkTU f x r s q m) -> x <> -1 ->
  pbx_register (Some l) e w
  = Ret 0
      {| heap := <[l := mkTU f x (int_wrap (r + 1)) s q m]> (heap w);
         pbx := Some (mkPBX (<[e := l]> (extensions p)) false
                        (int_wrap (active_tus p + 1)));
         trace := EvUnlock MPbx :: EvLock MPbx :: trace w;
         write_fails := write_fails w;
         malloc := malloc w |}.
Proof.
  intros Hp Hl He Hslot Ha Hx.
  unfold pbx_register, tu_set_extension. run.
  destruct (Z.ltb_spec e 0); [lia|].
  rewrite Z.geb_leb. destruct (Z.leb_spec PBX_MAX_EXTENSIONS e); [lia|].
  run. rewrite Hslot. run.
  destruct (Z.eqb_spec x (-1)); [lia|]. run.
  reflexivity.
Qed.

Lemma register_free_slot_witness :
  pbx_register (Some 1%positive) 7 two_clients
  = Ret 0
      {| heap := <[1%positive := mkTU 4 4 (int_wrap (2 + 1)) TU_DIAL_TONE NULL false]>
                   (heap two_clients);
         pbx := Some (mkPBX (<[7 := 1%positive]> (<[4 := 1%positive]> (<[5 := 2%positive]> ∅)))
                        false (int_wrap (2 + 1)));
         trace := EvUnlock MPbx :: EvLock MPbx :: trace two_clients;
         write_fails := write_fails two_clients;
         malloc := malloc two_clients |}.
Proof.
  refine (register_free_slot two_clients
            (mkPBX (<[4 := 1%positive]> (<[5 := 2%positive]> ∅)) false 2)
            1%positive 7 4 4 2 TU_DIAL_TONE NULL false _ _ _ _ _ _).
  - reflexivity.
  - reflexivity.
  - unfold PBX_MAX_EXTENSIONS. lia.
  - reflexivity.
  - reflexivity.
  - lia.
Defined.

(** X16: registering at an extension that is taken returns -1 and changes
    neither the registry nor any TU; the TU given is not even read. *)
Theorem register_taken_slot
    (w : World) (p : PBX) (tu l' : loc) (e : Z) :
  pbx w = Some p -> lock p = false ->
  0 <= e < PBX_MAX_EXTENSIONS -> extensions p !! e = Some l' ->
  pbx_register (Some tu) e w
  = Ret (-1)
      {| heap := heap w;
         pbx := pbx w;
         trace := EvUnlock MPbx :: EvLock MPbx :: trace w;
         write_fails := write_fails w;
         malloc := malloc w |}.
Proof.
  intros Hp Hl He Hslot.
  unfold pbx_register. run.
  destruct (Z.ltb_spec e 0); [lia|].
  rewrite Z.geb_leb. destruct (Z.leb_spec PBX_MAX_EXTENSIONS e); [lia|].
  run. rewrite Hslot. run.
  rewrite Hp. destruct p; simpl in *; by subst.
Qed.

Lemma register_taken_slot_witness :
  pbx_register (Some 1%positive) 5 two_clients
  = Ret (-1)
      {| heap := heap two_clients;
         pbx := pbx two_clients;
         trace := EvUnlock MPbx :: EvLock MPbx :: trace two_clients;
         write_fails := write_fails two_clients;
         malloc := malloc two_clients |}.
Proof.
  refine (register_taken_slot two_clients
            (mkPBX (<[4 := 1%positive]> (<[5 := 2%positive]> ∅)) false 2)
            1%positive 2%positive 5 _ _ _ _).
  - reflexivity.
  - reflexivity.
  - unfold PBX_MAX_EXTENSIONS. lia.
  - reflexivity.
Defined.

(** X17: [pbx_register] and [pbx_dial] refuse a NULL TU and an extension
    below 0 or from PBX_MAX_EXTENSIONS on before they touch anything: they
    return -1 and the world, PBX lock included, is as it was. *)
Theorem pbx_rejects_invalid_arguments (w : World) (tu : ptr) (e : Z) :
  tu = NULL \/ e < 0 \/ PBX_MAX_EXTENSIONS <= e ->
  pbx_register tu e w = Ret (-1) w /\ pbx_dial tu e w = Ret (-1) w.
Proof.
  intros H.
  assert (Hc : ptr_eqb tu NULL || (e <? 0) || (e >=? PBX_MAX_EXTENSIONS) = true).
  { destruct H as [->|[H|H]].
    - reflexivity.
    - apply Z.ltb_lt in H. rewrite H. by rewrite orb_true_r.
    - rewrite Z.geb_leb. apply Z.leb_le in H. rewrite H. by rewrite orb_true_r. }
  unfold pbx_register, pbx_dial, pbx_is_null, bind.
  destruct (bool_decide (pbx w = None)); cbn [orb]; [done|].
  by rewrite Hc.
Qed.

Lemma pbx_rejects_invalid_arguments_witness :
  pbx_register (Some 1%positive) 1024 two_clients = Ret (-1) two_clients /\
  pbx_dial (Some 1%positive) 1024 two_clients = Ret (-1) two_clients.
Proof.
  apply (pbx_rejects_invalid_arguments two_clients (Some 1%positive) 1024).
  right. right. unfold PBX_MAX_EXTENSIONS. lia.
Defined.

(** X18: unregistering a TU that the registry does not hold in the slot of
    the TU's own extension returns -1 and changes neither the registry nor
    any TU. *)
Theorem unregister_not_registered
    (w : World) (p : PBX) (l : loc) (t : TU) :
  pbx w = Some p -> lock p = false ->
  heap w !! l = Some t ->
  ext t < 0 \/ PBX_MAX_EXTENSIONS <= ext t \/ extensions p !! ext t <> Some l ->
  pbx_unregister (Some l) w
  = Ret (-1)
      {| heap := heap w;
         pbx := pbx w;
         trace := EvUnlock MPbx :: EvLock MPbx :: trace w;
         write_fails := write_fails w;
         malloc := malloc w |}.
Proof.
  intros Hp Hl Ha Hno. destruct t as [f x r s q m]. cbn [ext] in Hno.
  assert (Hp' : Some (set_lock false (set_lock true p)) = pbx w).
  { rewrite Hp. destruct p; simpl in *; by subst. }
  unfold pbx_unregister, tu_extension. run.
  rewrite Z.geb_leb.
  destruct (Z.ltb_spec x 0); [run; by rewrite Hp'|].
  destruct (Z.leb_spec PBX_MAX_EXTENSIONS x); [run; by rewrite Hp'|].
  destruct Hno as [?|[?|Hno]]; [lia|lia|].
  run.
  assert (Hne : ptr_eqb (extensions p !! x) (Some l) = false).
  { destruct (extensions p !! x) as [l'|] eqn:Hs; [|reflexivity].
    apply ptr_eqb_ne. congruence. }
  rewrite Hne. run. by rewrite Hp'.
Qed.

Lemma unregister_not_registered_witness :
  pbx_unregister (Some 1%positive)
    (with_pbx (Some (mkPBX (<[7 := 1%positive]> ∅) false 1)) two_clients)
  = Ret (-1)
      {| heap := heap two_clients;
         pbx := Some (mkPBX (<[7 := 1%positive]> ∅) false 1);
         trace := EvUnlock MPbx :: EvLock MPbx :: trace two_clients;
         write_fails := write_fails two_clients;
         malloc := malloc two_clients |}.
Proof.
  refine (unregister_not_registered
            (with_pbx (Some (mkPBX (<[7 := 1%positive]> ∅) false 1)) two_clients)
            (mkPBX (<[7 := 1%positive]> ∅) false 1) 1%positive
            (mkTU 4 4 2 TU_DIAL_TONE NULL false) _ _ _ _).
  - reflexivity.
  - reflexivity.
  - reflexivity.
  - right. right. discriminate.
Defined.

(** X19: a TU registered at an extension other than its own cannot be
    unregistered: [pbx_register] returns 0 and fills the slot, but
    [pbx_unregister] looks in the slot of the TU's own extension, returns
    -1, and the slot, the count of active TUs and the registry's reference
    stay. *)
Theorem register_elsewhere_stays_registered
    (w : World) (p : PBX) (l : loc) (e f x r : Z) (s : TU_STATE) (q : ptr)
    (m : bool) :
  pbx w = Some p -> lock p = false ->
  0 <= e < PBX_MAX_EXTENSIONS -> extensions p !! e = None ->
  heap w !! l = Some (mkTU f x r s q m) ->
  x <> -1 -> x <> e -> extensions p !! x <> Some l ->
  (r0 <- pbx_register (Some l) e ;;
   r1 <- pbx_unregister (Some l) ;; ret (r0, r1)) w
  = Ret (0, -1)
      {| heap := <[l := mkTU f x (int_wrap (r + 1)) s q m]> (heap w);
         pbx := Some (mkPBX (<[e := l]> (extensions p)) false
                        (int_wrap (active_tus p + 1)));
         trace := EvUnlock MPbx :: EvLock MPbx
                  :: EvUnlock MPbx :: EvLock MPbx :: trace w;
         write_fails := write_fails w;
         malloc := malloc w |}.
Proof.
  intros Hp Hl He Hslot Ha Hx Hxe Hno.
  unfold pbx_register, pbx_unregister, tu_set_extension, tu_extension. run.
  destruct (Z.ltb_spec e 0); [lia|].
  rewrite Z.geb_leb. destruct (Z.leb_spec PBX_MAX_EXTENSIONS e); [lia|].
  run. rewrite Hslot. run.
  destruct (Z.eqb_spec x (-1)); [lia|]. run.
  rewrite Z.geb_leb.
  destruct (Z.ltb_spec x 0); [by run|].
  destruct (Z.leb_spec PBX_MAX_EXTENSIONS x); [by run|].
  run. unfold slot_set. rewrite lookup_insert_ne by done.
  assert (Hne : ptr_eqb (extensions p !! x) (Some l) = false).
  { destruct (extensions p !! x) as [l'|] eqn:Hs; [|reflexivity].
    apply ptr_eqb_ne. congruence. }
  rewrite Hne. by run.
Qed.

Lemma register_elsewhere_stays_registered_witness :
  (r0 <- pbx_register (Some 1%positive) 7 ;;
   r1 <- pbx_unregister (Some 1%positive) ;; ret (r0, r1))
    (with_pbx (Some (mkPBX ∅ false 0)) two_clients)
  = Ret (0, -1)
      {| heap := <[1%positive := mkTU 4 4 (int_wrap (2 + 1)) TU_DIAL_TONE NULL false]>
                   (heap two_clients);
         pbx := Some (mkPBX (<[7 := 1%positive]> ∅) false (int_wrap (0 + 1)));
         trace := EvUnlock MPbx :: EvLock MPbx
                  :: EvUnlock MPbx :: EvLock MPbx :: trace two_clients;
         write_fails := write_fails two_clients;
         malloc := malloc two_clients |}.
Proof.
  refine (register_elsewhere_stays_registered
            (with_pbx (Some (mkPBX ∅ false 0)) two_clients)
            (mkPBX ∅ false 0) 1%positive 7 4 4 2 TU_DIAL_TONE NULL false
            _ _ _ _ _ _ _ _).
  - reflexivity.
  - reflexivity.
  - unfold PBX_MAX_EXTENSIONS. lia.
  - reflexivity.
  - reflexivity.
  - lia.
  - lia.
  - discriminate.
Defined.

(** X20: registering a TU that is in no call at its own extension and
    unregistering it again returns 0 twice and gives back the registry as
    it was; the TU has its old count and is on hook, whatever state it was
    in, and its mutex is free. *)
Theorem register_then_unregister
    (w : World) (p : PBX) (l : loc) (e f r : Z) (s : TU_STATE) :
  pbx w = Some p -> lock p = false ->
  0 <= e < PBX_MAX_EXTENSIONS -> extensions p !! e = None ->
  0 <= active_tus p < INT_MAX ->
  heap w !! l = Some (mkTU f e r s NULL false) -> in_call s = false ->
  0 < r -> r + 2 <= INT_MAX -> writes_succeed w ->
  exists w',
    (r0 <- pbx_register (Some l) e ;;
     r1 <- pbx_unregister (Some l) ;; ret (r0, r1)) w = Ret (0, 0) w' /\
    heap w' = <[l := mkTU f e r TU_ON_HOOK NULL false]> (heap w) /\
    pbx w' = pbx w.
Proof.
  intros Hp Hl He Hslot Hn Ha Hs Hr Hr' Hw.
  assert (Hn1 : int_wrap (active_tus p + 1) = active_tus p + 1)
    by (apply int_wrap_succ; lia).
  assert (Hn2 : int_wrap (active_tus p + 1 - 1) = active_tus p).
  { replace (active_tus p + 1 - 1) with (active_tus p) by lia.
    apply int_wrap_id. unfold in_int, INT_MIN, INT_MAX in *. lia. }
  assert (Hr1 : int_wrap (r + 1) = r + 1) by (apply int_wrap_succ; lia).
  assert (Hr2 : int_wrap (r + 1 + 1) = r + 2).
  { rewrite int_wrap_succ by lia. lia. }
  assert (Hr3 : int_wrap (r + 2 - 1) = r + 1).
  { rewrite int_wrap_pred by lia. lia. }
  assert (Hr4 : int_wrap (r + 1 - 1) = r).
  { replace (r + 1 - 1) with r by lia.
    apply int_wrap_id. unfold in_int, INT_MIN, INT_MAX in *. lia. }
  unfold pbx_register, pbx_unregister, tu_set_extension, tu_extension. run.
  destruct (Z.ltb_spec e 0); [lia|].
  rewrite Z.geb_leb. destruct (Z.leb_spec PBX_MAX_EXTENSIONS e); [lia|].
  run. rewrite Hslot. run.
  destruct (Z.eqb_spec e (-1)); [lia|]. run.
  destruct (Z.ltb_spec e 0); [lia|].
  rewrite Z.geb_leb. destruct (Z.leb_spec PBX_MAX_EXTENSIONS e); [lia|].
  run. unfold slot_set. rewrite lookup_insert_eq, ptr_eqb_refl. run.
  rewrite Hr1, Hr2, Hn1, Hn2.
  unfold tu_hangup.
  destruct s; try discriminate Hs; run;
    destruct (active_tus p =? 0); run; rewrite ?Hr3;
    (erewrite run_unref_keep;
       [| solve_lookup | reflexivity
        | cbn [ref_count set_ref_count set_mutex]; rewrite Hr4; lia ]);
    run; cbn [ref_count set_ref_count set_mutex]; rewrite ?Hr4;
    (eexists; split; [reflexivity|]; world_cbn; split;
     [ apply map_eq; intros c; destruct (decide (c = l)) as [->|Hc];
       simpl_lookup; reflexivity
     | rewrite Hp, delete_insert_id by done;
       destruct p; simpl in *; by subst ]).
Qed.

Lemma register_then_unregister_witness :
  exists w',
    (r0 <- pbx_register (Some 1%positive) 4 ;;
     r1 <- pbx_unregister (Some 1%positive) ;; ret (r0, r1))
      (with_pbx (Some (mkPBX ∅ false 0)) two_clients) = Ret (0, 0) w' /\
    heap w' = <[1%positive := mkTU 4 4 2 TU_ON_HOOK NULL false]>
                (heap (with_pbx (Some (mkPBX ∅ false 0)) two_clients)) /\
    pbx w' = pbx (with_pbx (Some (mkPBX ∅ false 0)) two_clients).
Proof.
  refine (register_then_unregister
            (with_pbx (Some (mkPBX ∅ false 0)) two_clients)
            (mkPBX ∅ false 0) 1%positive 4 4 2 TU_DIAL_TONE
            _ _ _ _ _ _ _ _ _ _).
  - reflexivity.
  - reflexivity.
  - unfold PBX_MAX_EXTENSIONS. lia.
  - reflexivity.
  - unfold INT_MAX. simpl. lia.
  - reflexivity.
  - reflexivity.
  - lia.
  - unfold INT_MAX. lia.
  - intros tr d. reflexivity.
Defined.

(** ** Calls through the registry *)

(** X21: a dial through the registry of an extension whose TU [x] is on
    hook links the two TUs and returns 0.  The two references that
    [pbx_dial] takes for the time of the call are given back: each count
    ends one higher, for the peer link.  The registry is unchanged and its
    lock free again. *)
Theorem pbx_dial_rings
    (w : World) (p : PBX) (a x : loc) (e fa ea ra fx ex rx : Z) (pa : ptr) :
  pbx w = Some p -> lock p = false ->
  0 <= e < PBX_MAX_EXTENSIONS -> extensions p !! e = Some x ->
  a <> x ->
  heap w !! a = Some (mkTU fa ea ra TU_DIAL_TONE pa false) ->
  heap w !! x = Some (mkTU fx ex rx TU_ON_HOOK NULL false) ->
  0 <= ra -> ra + 2 <= INT_MAX -> 0 <= rx -> rx + 2 <= INT_MAX ->
  0 <= fa -> 0 <= fx -> writes_succeed w ->
  exists w',
    pbx_dial (Some a) e w = Ret 0 w' /\
    heap w' !! a = Some (mkTU fa ea (ra + 1) TU_RING_BACK (Some x) false) /\
    heap w' !! x = Some (mkTU fx ex (rx + 1) TU_RINGING (Some a) false) /\
    (forall c, c <> a -> c <> x -> heap w' !! c = heap w !! c) /\
    pbx w' = pbx w /\
    io_events (trace w')
    = EvWrite fx ("RINGING" +:+ EOL) :: EvWrite fa ("RING BACK" +:+ EOL)
      :: io_events (trace w).
Proof.
  intros Hp Hl He Hslot Hax Ha Hx Hra Hra' Hrx Hrx' Hfa Hfx Hw.
  assert (Ha1 : int_wrap (ra + 1) = ra + 1) by (apply int_wrap_succ; lia).
  assert (Ha2 : int_wrap (ra + 1 + 1) = ra + 1 + 1) by (apply int_wrap_succ; lia).
  assert (Ha3 : int_wrap (ra + 1 + 1 - 1) = ra + 1).
  { rewrite int_wrap_pred by lia. lia. }
  assert (Hx1 : int_wrap (rx + 1) = rx + 1) by (apply int_wrap_succ; lia).
  assert (Hx2 : int_wrap (rx + 1 + 1) = rx + 1 + 1) by (apply int_wrap_succ; lia).
  assert (Hx3 : int_wrap (rx + 1 + 1 - 1) = rx + 1).
  { rewrite int_wrap_pred by lia. lia. }
  unfold pbx_dial. run.
  destruct (Z.ltb_spec e 0); [lia|].
  rewrite Z.geb_leb. destruct (Z.leb_spec PBX_MAX_EXTENSIONS e); [lia|].
  run. rewrite Hslot. run. rewrite Ha1, Hx1.
  unfold tu_dial. run.
  rewrite (proj2 (Pos.eqb_neq a x)) by done.
  destruct (a <? x)%positive; run; rewrite ?Ha2, ?Hx2;
    try (erewrite run_unref_keep;
       [| solve_lookup | reflexivity
        | cbn [ref_count set_ref_count set_mutex set_state set_peer];
          rewrite Hx3; lia ]);
    run;
    try (erewrite run_unref_keep;
       [| solve_lookup | reflexivity
        | cbn [ref_count set_ref_count set_mutex set_state set_peer];
          rewrite Ha3; lia ]);
    run;
    (eexists; split; [reflexivity|]; world_cbn;
     cbn [ref_count set_ref_count set_mutex set_state set_peer];
     rewrite ?Ha3, ?Hx3;
     split; [solve_lookup|]; split; [solve_lookup|];
     split; [intros c Hca Hcx; by rewrite !lookup_insert_ne by congruence|];
     split; [|reflexivity];
     rewrite Hp; destruct p; simpl in *; by subst).
Qed.

Lemma pbx_dial_rings_witness :
  exists w',
    pbx_dial (Some 1%positive) 5 two_clients = Ret 0 w' /\
    heap w' !! 1%positive
    = Some (mkTU 4 4 (2 + 1) TU_RING_BACK (Some 2%positive) false) /\
    heap w' !! 2%positive
    = Some (mkTU 5 5 (2 + 1) TU_RINGING (Some 1%positive) false) /\
    (forall c, c <> 1%positive -> c <> 2%positive ->
       heap w' !! c = heap two_clients !! c) /\
    pbx w' = pbx two_clients /\
    io_events (trace w')
    = EvWrite 5 ("RINGING" +:+ EOL) :: EvWrite 4 ("RING BACK" +:+ EOL)
      :: io_events (trace two_clients).
Proof.
  refine (pbx_dial_rings two_clients
            (mkPBX (<[4 := 1%positive]> (<[5 := 2%positive]> ∅)) false 2)
            1%positive 2%positive 5 4 4 2 5 5 2 NULL
            _ _ _ _ _ _ _ _ _ _ _ _ _ _).
  - reflexivity.
  - reflexivity.
  - unfold PBX_MAX_EXTENSIONS. lia.
  - reflexivity.
  - discriminate.
  - reflexivity.
  - reflexivity.
  - lia.
  - unfold INT_MAX. lia.
  - lia.
  - unfold INT_MAX. lia.
  - lia.
  - lia.
  - intros tr d. reflexivity.
Defined.

(** X22: a client that has the dial tone and dials its own extension
    stops the exchange: [pbx_dial] does not return, waiting for the TU's
    mutex that the same call holds, and the PBX lock, taken before, is
    never released. *)
Theorem pbx_dial_own_extension_holds_lock
    (w : World) (p : PBX) (a : loc) (e fa ea ra : Z) (pa : ptr) :
  pbx w = Some p -> lock p = false ->
  0 <= e < PBX_MAX_EXTENSIONS -> extensions p !! e = Some a ->
  heap w !! a = Some (mkTU fa ea ra TU_DIAL_TONE pa false) ->
  exists w',
    pbx_dial (Some a) e w = Blocked (MTu a) w' /\
    (lock <$> pbx w') = Some true /\
    (mutex <$> heap w' !! a) = Some true /\
    io_events (trace w') = io_events (trace w).
Proof.
  intros Hp Hl He Hslot Ha.
  unfold pbx_dial. run.
  destruct (Z.ltb_spec e 0); [lia|].
  rewrite Z.geb_leb. destruct (Z.leb_spec PBX_MAX_EXTENSIONS e); [lia|].
  run. rewrite Hslot. run.
  unfold tu_dial. run. rewrite Pos.ltb_irrefl. run.
  erewrite run_lock_held by side.
  eexists. split; [reflexivity|]. world_cbn.
  split; [reflexivity|]. split; [|reflexivity].
  by rewrite lookup_insert_eq.
Qed.

Lemma pbx_dial_own_extension_holds_lock_witness :
  exists w',
    pbx_dial (Some 1%positive) 4 two_clients = Blocked (MTu 1%positive) w' /\
    (lock <$> pbx w') = Some true /\
    (mutex <$> heap w' !! 1%positive) = Some true /\
    io_events (trace w') = io_events (trace two_clients).
Proof.
  refine (pbx_dial_own_extension_holds_lock two_clients
            (mkPBX (<[4 := 1%positive]> (<[5 := 2%positive]> ∅)) false 2)
            1%positive 4 4 4 2 NULL _ _ _ _ _).
  - reflexivity.
  - reflexivity.
  - unfold PBX_MAX_EXTENSIONS. lia.
  - reflexivity.
  - reflexivity.
Defined.

(** X23: unregistering a TU [a] that is in a connected call ends the call:
    [a]'s slot is emptied and the number of active TUs lowered, the peer
    [b] is given the dial tone and told so, and 0 is returned.  [a] is left
    on hook with one reference fewer than before: the registry's reference
    is released, the one [a] got for the peer link is not. *)
Theorem unregister_connected_ends_call
    (w : World) (p : PBX) (a b : loc) (fa ea ra fb eb rb : Z) :
  pbx w = Some p -> lock p = false ->
  0 <= ea < PBX_MAX_EXTENSIONS -> extensions p !! ea = Some a ->
  1 < active_tus p <= INT_MAX ->
  a <> b ->
  heap w !! a = Some (mkTU fa ea ra TU_CONNECTED (Some b) false) ->
  heap w !! b = Some (mkTU fb eb rb TU_CONNECTED (Some a) false) ->
  1 < ra < INT_MAX -> 1 < rb <= INT_MAX ->
  0 <= fa -> 0 <= fb -> writes_succeed w ->
  exists w',
    pbx_unregister (Some a) w = Ret 0 w' /\
    heap w' !! a = Some (mkTU fa ea (ra - 1) TU_ON_HOOK NULL false) /\
    heap w' !! b = Some (mkTU fb eb (rb - 1) TU_DIAL_TONE NULL false) /\
    (forall c, c <> a -> c <> b -> heap w' !! c = heap w !! c) /\
    pbx w' = Some (mkPBX (delete ea (extensions p)) false (active_tus p - 1)) /\
    io_events (trace w')
    = EvWrite fb ("DIAL TONE" +:+ EOL)
      :: EvWrite fa (snprintf 15 (on_hook_line fa))
      :: io_events (trace w).
Proof.
  intros Hp Hl He Hslot Hn Hab Ha Hb Hra Hrb Hfa Hfb Hw.
  assert (Hn1 : int_wrap (active_tus p - 1) = active_tus p - 1)
    by (apply int_wrap_pred; lia).
  assert (Ha1 : int_wrap (ra + 1) = ra + 1) by (apply int_wrap_succ; lia).
  assert (Ha2 : int_wrap (ra + 1 - 1) = ra).
  { rewrite int_wrap_pred by lia. lia. }
  assert (Ha3 : int_wrap (ra - 1) = ra - 1) by (apply int_wrap_pred; lia).
  assert (Hb1 : int_wrap (rb - 1) = rb - 1) by (apply int_wrap_pred; lia).
  unfold pbx_unregister, tu_extension. run.
  destruct (Z.ltb_spec ea 0); [lia|].
  rewrite Z.geb_leb. destruct (Z.leb_spec PBX_MAX_EXTENSIONS ea); [lia|].
  run. rewrite Hslot, ptr_eqb_refl. run. rewrite Ha1, Hn1.
  unfold tu_hangup. run.
  try (erewrite run_unref_keep;
     [| solve_lookup | reflexivity
      | cbn [ref_count set_ref_count set_mutex set_state set_peer];
        rewrite Hb1; lia ]).
  run.
  try (erewrite run_unref_keep;
     [| solve_lookup | reflexivity
      | cbn [ref_count set_ref_count set_mutex set_state set_peer];
        rewrite Ha2; lia ]).
  run.
  destruct (Z.eqb_spec (active_tus p - 1) 0); [lia|]. run.
  try (erewrite run_unref_keep;
     [| solve_lookup | reflexivity
      | cbn [ref_count set_ref_count set_mutex set_state set_peer];
        rewrite ?Ha2, Ha3; lia ]).
  run.
  eexists; split; [reflexivity|]; world_cbn.
  cbn [ref_count set_ref_count set_mutex set_state set_peer].
  rewrite ?Ha2, ?Ha3, ?Hb1.
  split; [solve_lookup|]. split; [solve_lookup|].
  split; [intros c Hca Hcx; by rewrite !lookup_insert_ne by congruence|].
  split; reflexivity.
Qed.

Lemma unregister_connected_ends_call_witness :
  exists w',
    pbx_unregister (Some 1%positive) connected_clients = Ret 0 w' /\
    heap w' !! 1%positive = Some (mkTU 4 4 (3 - 1) TU_ON_HOOK NULL false) /\
    heap w' !! 2%positive = Some (mkTU 5 5 (3 - 1) TU_DIAL_TONE NULL false) /\
    (forall c, c <> 1%positive -> c <> 2%positive ->
       heap w' !! c = heap connected_clients !! c) /\
    pbx w' = Some (mkPBX (delete 4 (<[4 := 1%positive]> (<[5 := 2%positive]> ∅)))
                     false (2 - 1)) /\
    io_events (trace w')
    = EvWrite 5 ("DIAL TONE" +:+ EOL)
      :: EvWrite 4 (snprintf 15 (on_hook_line 4))
      :: io_events (trace connected_clients).
Proof.
  refine (unregister_connected_ends_call connected_clients
            (mkPBX (<[4 := 1%positive]> (<[5 := 2%positive]> ∅)) false 2)
            1%positive 2%positive 4 4 3 5 5 3
            _ _ _ _ _ _ _ _ _ _ _ _ _).
  - reflexivity.
  - reflexivity.
  - unfold PBX_MAX_EXTENSIONS. lia.
  - reflexivity.
  - unfold INT_MAX. simpl. lia.
  - discriminate.
  - reflexivity.
  - reflexivity.
  - unfold INT_MAX. lia.
  - unfold INT_MAX. lia.
  - lia.
  - lia.
  - intros tr d. reflexivity.
Defined.

(** ** The order of the two mutexes *)



(** ** The command lines *)

Lemma after_prefix5 (c1 c2 c3 c4 c5 : ascii) (s : string) :
  after 5 (String c1 (String c2 (String c3 (String c4 (String c5 s))))) = s.
Proof.
  unfold after. cbn [String.length Nat.sub String.substring].
  apply substring_all. lia.
Qed.

Lemma prefix_empty (s : string) : String.prefix EmptyString s = true.
Proof. by destruct s. Qed.

Lemma skip_spaces_blanks (k : nat) (s : string) :
  skip_spaces (string_of_list_ascii (repeat " "%char k) +:+ s) = skip_spaces s.
Proof. induction k as [|k IH]; [reflexivity|]. simpl. exact IH. Qed.

Lemma atoi_from_acc (d : Decimal.uint) (p : positive) :
  atoi_from (Z.pos p) (NilEmpty.string_of_uint d)
  = Z.pos (Pos.of_uint_acc d p).
Proof.
  revert p. induction d; intros p;
    cbn [NilEmpty.string_of_uint atoi_from Pos.of_uint_acc];
    try reflexivity;
    (change (isdigit _) with true; cbn match; rewrite <- IHd; f_equal;
     match goal with
     | |- context [Z.of_nat (nat_of_ascii ?c)] =>
         let v := eval vm_compute in (Z.of_nat (nat_of_ascii c)) in
         change (Z.of_nat (nat_of_ascii c)) with v
     end; lia).
Qed.

Lemma atoi_from_uint (d : Decimal.uint) :
  atoi_from 0 (NilEmpty.string_of_uint d) = Z.of_N (Pos.of_uint d).
Proof.
  induction d; cbn [NilEmpty.string_of_uint atoi_from Pos.of_uint];
    try reflexivity; try exact IHd;
    (change (isdigit _) with true; cbn match; cbn [Z.of_N];
     rewrite <- atoi_from_acc; f_equal).
Qed.

Lemma atoi_fmt_d (n : Z) : 0 <= n <= INT_MAX -> atoi (fmt_d n) = n.
Proof.
  intros Hn. unfold atoi, fmt_d.
  destruct n as [|p|p]; [reflexivity| |lia].
  cbn [Z.to_int NilZero.string_of_int].
  assert (Hs : NilZero.string_of_uint (Pos.to_uint p)
               = NilEmpty.string_of_uint (Pos.to_uint p)).
  { pose proof (Unsigned.to_uint_nonnil p) as Hnil.
    by destruct (Pos.to_uint p). }
  rewrite Hs, atoi_from_uint, DecimalPos.Unsigned.of_to. cbn [Z.of_N].
  apply int_wrap_id. unfold in_int, INT_MIN, INT_MAX in *. lia.
Qed.

Lemma fmt_d_starts_with_digit (n : Z) :
  0 <= n ->
  starts_with_digit (fmt_d n) = true /\ skip_spaces (fmt_d n) = fmt_d n.
Proof.
  intros Hn. unfold fmt_d.
  destruct n as [|p|p]; [by split| |lia].
  cbn [Z.to_int NilZero.string_of_int].
  pose proof (Unsigned.to_uint_nonnil p) as Hnil.
  by destruct (Pos.to_uint p).
Qed.

(** X25: a line that is "dial ", any number of further blanks and the
    decimal text of an extension number [n] that fits an [int] makes the
    service thread call [pbx_dial] with exactly [n]. *)
Theorem dial_line_dials_number
    (w : World) (tu : ptr) (k : nat) (n : Z) :
  0 <= n <= INT_MAX ->
  service_command tu
    ("dial " +:+ string_of_list_ascii (repeat " "%char k) +:+ fmt_d n) w
  = (pbx_dial tu n ;; ret tt) w.
Proof.
  intros Hn. unfold service_command.
  change ("dial " +:+ ?s)
    with (String "d" (String "i" (String "a" (String "l" (String " " s))))).
  cbn [String.eqb Ascii.eqb Bool.eqb String.prefix andb].
  destruct (ascii_dec "d" "d") as [_|Hd]; [|by destruct Hd].
  destruct (ascii_dec "i" "i") as [_|Hd]; [|by destruct Hd].
  destruct (ascii_dec "a" "a") as [_|Hd]; [|by destruct Hd].
  destruct (ascii_dec "l" "l") as [_|Hd]; [|by destruct Hd].
  destruct (ascii_dec " " " ") as [_|Hd]; [|by destruct Hd].
  rewrite prefix_empty, after_prefix5, skip_spaces_blanks.
  destruct (fmt_d_starts_with_digit n) as [Hdig Hskip]; [lia|].
  by rewrite Hskip, Hdig, atoi_fmt_d.
Qed.

Lemma dial_line_dials_number_witness :
  service_command (Some 1%positive)
    ("dial " +:+ string_of_list_ascii (repeat " "%char 2) +:+ fmt_d 5)
    two_clients
  = (pbx_dial (Some 1%positive) 5 ;; ret tt) two_clients.
Proof.
  apply (dial_line_dials_number two_clients (Some 1%positive) 2 5).
  unfold INT_MAX. lia.
Defined.

(** X26: a dial line whose argument, after the blanks, does not start with
    a digit is dropped: nothing is dialled, no TU changes and nothing is
    sent, not even an error line.  A negative number is such an
    argument. *)
Theorem dial_line_without_digit_ignored
    (w : World) (tu : ptr) (rest : string) :
  starts_with_digit (skip_spaces rest) = false ->
  service_command tu ("dial " +:+ rest) w = Ret tt w.
Proof.
  intros Hrest. unfold service_command.
  change ("dial " +:+ ?s)
    with (String "d" (String "i" (String "a" (String "l" (String " " s))))).
  cbn [String.eqb Ascii.eqb Bool.eqb String.prefix andb].
  destruct (ascii_dec "d" "d") as [_|Hd]; [|by destruct Hd].
  destruct (ascii_dec "i" "i") as [_|Hd]; [|by destruct Hd].
  destruct (ascii_dec "a" "a") as [_|Hd]; [|by destruct Hd].
  destruct (ascii_dec "l" "l") as [_|Hd]; [|by destruct Hd].
  destruct (ascii_dec " " " ") as [_|Hd]; [|by destruct Hd].
  by rewrite prefix_empty, after_prefix5, Hrest.
Qed.

Lemma dial_line_without_digit_ignored_witness :
  service_command (Some 1%positive) ("dial " +:+ "-5") two_clients
  = Ret tt two_clients.
Proof.
  apply (dial_line_without_digit_ignored two_clients (Some 1%positive) "-5").
  reflexivity.
Defined.

(** X27: a chat line hands everything after the first five characters to
    [tu_chat], blanks included. *)
Theorem chat_line_passes_text (w : World) (tu : ptr) (text : string) :
  service_command tu ("chat " +:+ text) w
  = (tu_chat tu (Some text) ;; ret tt) w.
Proof.
  unfold service_command.
  change ("chat " +:+ ?s)
    with (String "c" (String "h" (String "a" (String "t" (String " " s))))).
  cbn [String.eqb Ascii.eqb Bool.eqb String.prefix andb].
  destruct (ascii_dec "c" "c") as [_|Hd]; [|by destruct Hd].
  destruct (ascii_dec "h" "h") as [_|Hd]; [|by destruct Hd].
  destruct (ascii_dec "a" "a") as [_|Hd]; [|by destruct Hd].
  destruct (ascii_dec "t" "t") as [_|Hd]; [|by destruct Hd].
  destruct (ascii_dec " " " ") as [_|Hd]; [|by destruct Hd].
  destruct (ascii_dec "d" "c") as [Hd|_]; [discriminate Hd|].
  by rewrite prefix_empty, after_prefix5.
Qed.

(** ** A whole session *)

(** X28: a client that connects on a descriptor [fd0] with a free
    extension and disconnects without a command leaves the exchange as it
    found it: the thread returns, the registry is as before with its lock
    free, and the TU made for the session is freed again. *)
Theorem session_without_commands_restores
    (w : World) (p : PBX) (fd0 : Z) (l : loc) :
  pbx w = Some p -> lock p = false ->
  0 <= fd0 < PBX_MAX_EXTENSIONS -> extensions p !! fd0 = None ->
  0 <= active_tus p < INT_MAX ->
  malloc w (trace w) = Some l -> heap w !! l = None ->
  writes_succeed w ->
  exists w',
    pbx_client_service fd0 [] w = Ret tt w' /\
    heap w' = heap w /\
    pbx w' = pbx w /\
    written_to fd0 (trace w')
    = (written_to fd0 (trace w)
         ++ [snprintf 15 (on_hook_line fd0); snprintf 64 (on_hook_line fd0)])%list.
Proof.
  intros Hp Hl Hfd Hslot Hn Hm Hfresh Hw.
  assert (Hn1 : int_wrap (active_tus p + 1) = active_tus p + 1)
    by (apply int_wrap_succ; lia).
  assert (Hn2 : int_wrap (active_tus p + 1 - 1) = active_tus p).
  { replace (active_tus p + 1 - 1) with (active_tus p) by lia.
    apply int_wrap_id. unfold in_int, INT_MIN, INT_MAX in *. lia. }
  unfold pbx_client_service.
  unfold bind at 1. rewrite (tu_init_spec _ _ _ Hm).
  unfold notify_events. world_cbn.
  destruct (Z.ltb_spec fd0 0); [lia|]. rewrite Hw. world_cbn.
  unfold pbx_register, pbx_unregister, tu_set_extension, tu_extension. run.
  destruct (Z.ltb_spec fd0 0); [lia|].
  rewrite Z.geb_leb. destruct (Z.leb_spec PBX_MAX_EXTENSIONS fd0); [lia|].
  run. rewrite Hslot. run.
  destruct (Z.eqb_spec fd0 (-1)); [lia|]. run.
  change (0 <? 0) with false. cbn match. cbn [service_loop]. run.
  destruct (Z.ltb_spec fd0 0); [lia|].
  rewrite Z.geb_leb. destruct (Z.leb_spec PBX_MAX_EXTENSIONS fd0); [lia|].
  run. unfold slot_set. rewrite lookup_insert_eq, ptr_eqb_refl. run.
  rewrite Hn1, Hn2.
  change (int_wrap (1 + 1)) with 2. change (int_wrap (2 + 1)) with 3.
  unfold tu_hangup. run.
  (erewrite run_unref_keep;
     [| solve_lookup | reflexivity | by vm_compute ]).
  run.
  destruct (active_tus p =? 0); run;
    (erewrite run_unref_keep;
       [| solve_lookup | reflexivity | by vm_compute ]);
    run;
    try (erewrite run_unref_free;
           [| solve_lookup | reflexivity | by vm_compute | reflexivity ]);
    run;
    cbn [fd set_ref_count set_mutex];
    unfold close_events;
    (destruct (Z.leb_spec 0 fd0); [|lia]);
    (eexists; split; [reflexivity|]; world_cbn; split;
     [ apply map_eq; intros c; destruct (decide (c = l)) as [->|Hc];
       [ by rewrite lookup_delete_eq | by simpl_lookup ]
     | split;
       [ rewrite Hp, delete_insert_id by done;
         destruct p; simpl in *; by subst
       | cbn [written_to app]; rewrite Z.eqb_refl; cbn [written_to app];
         by rewrite <- !app_assoc ] ]).
Qed.

Lemma session_without_commands_restores_witness :
  exists w',
    pbx_client_service 4 [] (quiet_world (fun _ => Some 1%positive))
    = Ret tt w' /\
    heap w' = heap (quiet_world (fun _ => Some 1%positive)) /\
    pbx w' = pbx (quiet_world (fun _ => Some 1%positive)) /\
    written_to 4 (trace w')
    = (written_to 4 (trace (quiet_world (fun _ => Some 1%positive)))
         ++ [snprintf 15 (on_hook_line 4); snprintf 64 (on_hook_line 4)])%list.
Proof.
  refine (session_without_commands_restores
            (quiet_world (fun _ => Some 1%positive)) (mkPBX ∅ false 0)
            4 1%positive _ _ _ _ _ _ _ _).
  - reflexivity.
  - reflexivity.
  - unfold PBX_MAX_EXTENSIONS. lia.
  - reflexivity.
  - unfold INT_MAX. simpl. lia.
  - reflexivity.
  - reflexivity.
  - intros tr d. reflexivity.
Defined.

(** X29: a connection whose descriptor is PBX_MAX_EXTENSIONS or more is
    dropped: registration fails, so whatever the client sends is never
    acted on; the TU made for it is freed and the registry is not touched,
    not even locked.  The client is sent the ON HOOK line of [tu_init]
    before the descriptor is closed, twice. *)
Theorem session_descriptor_out_of_range
    (w : World) (fd0 : Z) (l : loc) (lines : list string) :
  malloc w (trace w) = Some l -> heap w !! l = None ->
  PBX_MAX_EXTENSIONS <= fd0 -> writes_succeed w ->
  pbx_client_service fd0 lines w
  = Ret tt
      {| heap := heap w;
         pbx := pbx w;
         trace := EvClose fd0 :: EvClose fd0
                  :: EvUnlock (MTu l) :: EvLock (MTu l)
                  :: EvUnlock (MTu l)
                  :: EvWrite fd0 (snprintf 15 (on_hook_line fd0))
                  :: EvLock (MTu l) :: trace w;
         write_fails := write_fails w;
         malloc := malloc w |}.
Proof.
  intros Hm Hfresh Hfd Hw. unfold PBX_MAX_EXTENSIONS in Hfd.
  unfold pbx_client_service.
  unfold bind at 1. rewrite (tu_init_spec _ _ _ Hm).
  unfold notify_events. world_cbn.
  destruct (Z.ltb_spec fd0 0); [lia|]. rewrite Hw. world_cbn.
  unfold pbx_register, pbx_is_null. unfold bind at 2. unfold bind at 1.
  world_cbn.
  assert (Hc : (fd0 >=? PBX_MAX_EXTENSIONS) = true).
  { rewrite Z.geb_leb. apply Z.leb_le. unfold PBX_MAX_EXTENSIONS. lia. }
  rewrite Hc, !orb_true_r. unfold ret at 1.
  change (-1 <? 0) with true. cbn match.
  erewrite run_unref_free;
    [| solve_lookup | reflexivity | by vm_compute | reflexivity ].
  unfold sys_close, emit. world_cbn. cbn [fd]. unfold close_events.
  destruct (Z.leb_spec 0 fd0); [|lia]. cbn [app]. unfold log. world_cbn.
  f_equal. f_equal.
  apply map_eq; intros c; destruct (decide (c = l)) as [->|Hcl].
  - by rewrite lookup_delete_eq.
  - by simpl_lookup.
Qed.

Lemma session_descriptor_out_of_range_witness :
  pbx_client_service 1024 ["pickup"] (quiet_world (fun _ => Some 1%positive))
  = Ret tt
      {| heap := heap (quiet_world (fun _ => Some 1%positive));
         pbx := pbx (quiet_world (fun _ => Some 1%positive));
         trace := EvClose 1024 :: EvClose 1024
                  :: EvUnlock (MTu 1%positive) :: EvLock (MTu 1%positive)
                  :: EvUnlock (MTu 1%positive)
                  :: EvWrite 1024 (snprintf 15 (on_hook_line 1024))
                  :: EvLock (MTu 1%positive)
                  :: trace (quiet_world (fun _ => Some 1%positive));
         write_fails := write_fails (quiet_world (fun _ => Some 1%positive));
         malloc := malloc (quiet_world (fun _ => Some 1%positive)) |}.
Proof.
  apply (session_descriptor_out_of_range
           (quiet_world (fun _ => Some 1%positive)) 1024 1%positive
           ["pickup"]).
  - reflexivity.
  - reflexivity.
  - unfold PBX_MAX_EXTENSIONS. lia.
  - intros tr d. reflexivity.
Defined.

(** ** A client that cannot be written to *)

(** X30: when the write of the line fails, a pickup still gives the TU the
    dial tone and returns 0; [notify_client] closes the TU's descriptor,
    and the TU keeps that descriptor number and its count. *)
Theorem pickup_write_failure_closes
    (w : World) (a : loc) (fa ea ra : Z) (pa : ptr) :
  heap w !! a = Some (mkTU fa ea ra TU_ON_HOOK pa false) ->
  0 <= fa ->
  write_fails w (EvLock (MTu a) :: trace w) fa = true ->
  tu_pickup (Some a) w
  = Ret 0
      {| heap := <[a := mkTU fa ea ra TU_DIAL_TONE pa false]> (heap w);
         pbx := pbx w;
         trace := EvUnlock (MTu a) :: EvClose fa
                  :: EvWriteFail fa ("DIAL TONE" +:+ EOL)
                  :: EvLock (MTu a) :: trace w;
         write_fails := write_fails w;
         malloc := malloc w |}.
Proof.
  intros Ha Hfa Hfail. unfold tu_pickup. run.
  unfold notify_events. world_cbn.
  destruct (Z.ltb_spec fa 0); [lia|]. rewrite Hfail. run.
  by rewrite !insert_insert_eq.
Qed.

Lemma pickup_write_failure_closes_witness :
  tu_pickup (Some 2%positive)
    {| heap := heap two_clients; pbx := pbx two_clients; trace := [];
       write_fails := fun _ _ => true; malloc := malloc two_clients |}
  = Ret 0
      {| heap := <[2%positive := mkTU 5 5 2 TU_DIAL_TONE NULL false]>
                   (heap two_clients);
         pbx := pbx two_clients;
         trace := [EvUnlock (MTu 2%positive); EvClose 5;
                   EvWriteFail 5 ("DIAL TONE" +:+ EOL);
                   EvLock (MTu 2%positive)];
         write_fails := fun _ _ => true;
         malloc := malloc two_clients |}.
Proof.
  apply (pickup_write_failure_closes
           {| heap := heap two_clients; pbx := pbx two_clients; trace := [];
              write_fails := fun _ _ => true; malloc := malloc two_clients |}
           2%positive 5 5 2 NULL).
  - reflexivity.
  - lia.
  - reflexivity.
Defined.
